(** * collector/pg_stat_database.go: the pg_stat_database collector

    A shallow embedding of [statDatabaseQuery] and of
    [PGStatDatabaseCollector.Update], together with the parts of the Go
    libraries they call (strings.Join, fmt.Sprintf at the one format used,
    semver's Compare/GTE, the sql.Null* wrappers, utf8.ValidString, the
    name checks of prometheus/common/model, prometheus descriptors and
    constant metrics).

    - Go strings are byte sequences: [string].
    - float64 is the kernel's binary64 [float]; int64 and uint64 are [Z] and
      [N] (no arithmetic that could wrap is performed on them here).
    - The channel [ch] and the debug logger are modelled as two traces held
      in a [World] that every statement of [Update] threads through.
    - The result stream of [db.QueryContext] is the list of the outcomes of
      the successive [rows.Scan] calls, as far as [rows.Next] yields rows.
    - The context [ctx] and the deferred [rows.Close] do not act on the
      channel, the log or the result, and are left out. *)

From Stdlib Require Import ZArith NArith List String Ascii Bool Lia.
From Stdlib Require Import Floats.PrimFloat Floats.SpecFloat Floats.FloatOps.
Import ListNotations.

Local Open Scope string_scope.
Local Open Scope list_scope.

(** A decimal literal such as 4.2 denotes, as in Go, the nearest binary64. *)
#[local] Set Warnings "-inexact-float".

(* ------------------------------------------------------------------ *)
(** ** Go library fragments *)

Module strings.

(** strings.Join: "" for no element, the element itself for one, and the
    elements separated by [sep] otherwise. *)
Fixpoint Join (elems : list string) (sep : string) : string :=
  match elems with
  | [] => ""
  | [e] => e
  | e :: rest => e ++ sep ++ Join rest sep
  end.

(** strings.Split for a one-byte separator: the pieces between the
    occurrences of [sep]; a text without [sep] is its own single piece. *)
Fixpoint Split (s : string) (sep : ascii) : list string :=
  match s with
  | EmptyString => [""]
  | String c rest =>
      if Ascii.eqb c sep then "" :: Split rest sep
      else match Split rest sep with
           | [] => [String c ""]
           | p :: ps => String c p :: ps
           end
  end.

(** strings.ContainsRune restricted to one byte. *)
Fixpoint ContainsByte (s : string) (b : ascii) : bool :=
  match s with
  | EmptyString => false
  | String c rest => Ascii.eqb c b || ContainsByte rest b
  end.

End strings.

Module semver.

(** github.com/blang/semver/v4: a pre-release identifier is numeric or
    alphanumeric. *)
Record PRVersion := mkPR {
  VersionStr : string;
  VersionNum : N;
  IsNum : bool
}.

Record Version := mkVersion {
  Major : N;
  Minor : N;
  Patch : N;
  Pre : list PRVersion;
  Build : list string
}.

(** PRVersion.Compare: numeric identifiers sort below alphanumeric ones;
    two of a kind compare by number, or bytewise as strings. *)
Definition PRCompare (v o : PRVersion) : Z :=
  if IsNum v && negb (IsNum o) then (-1)%Z
  else if negb (IsNum v) && IsNum o then 1%Z
  else if IsNum v && IsNum o then
    if N.eqb (VersionNum v) (VersionNum o) then 0%Z
    else if N.ltb (VersionNum o) (VersionNum v) then 1%Z
    else (-1)%Z
  else
    if String.eqb (VersionStr v) (VersionStr o) then 0%Z
    else if String.ltb (VersionStr o) (VersionStr v) then 1%Z
    else (-1)%Z.

(** The loop of Version.Compare over the common prefix of the two
    pre-release lists, and the comparison of the lengths after it. *)
Fixpoint preCompare (v o : list PRVersion) : Z :=
  match v, o with
  | [], [] => 0%Z
  | [], _ :: _ => (-1)%Z
  | _ :: _, [] => 1%Z
  | pv :: v', po :: o' =>
      let comp := PRCompare pv po in
      if Z.eqb comp 0 then preCompare v' o'
      else if Z.eqb comp 1 then 1%Z
      else (-1)%Z
  end.

(** Version.Compare: -1, 0 or 1. Build metadata takes no part. *)
Definition Compare (v o : Version) : Z :=
  if negb (N.eqb (Major v) (Major o)) then
    if N.ltb (Major o) (Major v) then 1%Z else (-1)%Z
  else if negb (N.eqb (Minor v) (Minor o)) then
    if N.ltb (Minor o) (Minor v) then 1%Z else (-1)%Z
  else if negb (N.eqb (Patch v) (Patch o)) then
    if N.ltb (Patch o) (Patch v) then 1%Z else (-1)%Z
  else
    match Pre v, Pre o with
    | [], [] => 0%Z
    | [], _ :: _ => 1%Z
    | _ :: _, [] => (-1)%Z
    | pv, po => preCompare pv po
    end.

Definition GTE (v o : Version) : bool := Z.geb (Compare v o) 0.

(** The value of [semver.MustParse] on a plain "MAJOR.MINOR.PATCH" text. *)
Definition plain (major minor patch : N) : Version :=
  mkVersion major minor patch [] [].

End semver.

Module sql.

Module NullString.
Record t := mk {
  String : string;
  Valid : bool
}.
End NullString.

Module NullFloat64.
Record t := mk {
  Float64 : float;
  Valid : bool
}.
(** The zero value of a declared variable that no Scan has written. *)
Definition zero : t := mk 0%float false.
End NullFloat64.

(** A time.Time is used only through [Unix], its int64 second count. *)
Record Time := mkTime { Unix : Z }.

Module NullTime.
Record t := mk {
  Time : sql.Time;
  Valid : bool
}.
End NullTime.

End sql.

(** The conversion float64(i) of an int64: the nearest binary64, ties to
    even. *)
Definition float64_of_int64 (i : Z) : float :=
  SF2Prim (binary_normalize 53 1024 i 0 false).

(** Go's [error] values. *)
Inductive error := mkError (msg : string).

Module utf8.

(** The value of a byte. *)
Definition byte (b : ascii) : N := N_of_ascii b.

Definition inRange (b : ascii) (lo hi : N) : bool :=
  N.leb lo (byte b) && N.leb (byte b) hi.

(** The tables [first] and [acceptRanges] of unicode/utf8: for a leading
    byte of a multi-byte sequence, the number of bytes that follow the
    second one, and the range the second byte must lie in. Bytes that
    cannot lead (0x80..0xC1, 0xF5..0xFF) have no entry. *)
Definition first (b : ascii) : option (nat * N * N) :=
  let x := byte b in
  if N.leb 194 x && N.leb x 223 then Some (0%nat, 128%N, 191%N)
  else if N.eqb x 224 then Some (1%nat, 160%N, 191%N)
  else if N.leb 225 x && N.leb x 236 then Some (1%nat, 128%N, 191%N)
  else if N.eqb x 237 then Some (1%nat, 128%N, 159%N)
  else if N.leb 238 x && N.leb x 239 then Some (1%nat, 128%N, 191%N)
  else if N.eqb x 240 then Some (2%nat, 144%N, 191%N)
  else if N.leb 241 x && N.leb x 243 then Some (2%nat, 128%N, 191%N)
  else if N.eqb x 244 then Some (2%nat, 128%N, 143%N)
  else None.

(** Where the scan of [ValidString] stands: between two encoded runes, or
    inside one, the next byte having to lie in [lo, hi] and [more] bytes
    of 0x80..0xBF having to follow it. *)
Inductive Scan :=
| Between
| Inside (more : nat) (lo hi : N).

Definition step (q : Scan) (b : ascii) : option Scan :=
  match q with
  | Between =>
      if N.ltb (byte b) 128 then Some Between
      else match first b with
           | Some (more, lo, hi) => Some (Inside more lo hi)
           | None => None
           end
  | Inside more lo hi =>
      if inRange b lo hi
      then Some match more with
                | O => Between
                | S more' => Inside more' 128 191
                end
      else None
  end.

Fixpoint exec (q : Scan) (s : string) : option Scan :=
  match s with
  | EmptyString => Some q
  | String b s' =>
      match step q b with
      | Some q' => exec q' s'
      | None => None
      end
  end.

(** utf8.ValidString: every byte is ASCII or part of a well-formed
    sequence, and the text does not end inside one. *)
Definition ValidString (s : string) : bool :=
  match exec Between s with
  | Some Between => true
  | _ => false
  end.

End utf8.

Module model.

(** github.com/prometheus/common/model: the two ways names are checked,
    chosen by the package variable NameValidationScheme. *)
Inductive ValidationScheme := LegacyValidation | UTF8Validation.

Definition isLetter (b : ascii) : bool :=
  utf8.inRange b 97 122 || utf8.inRange b 65 90.

Definition isDigit (b : ascii) : bool := utf8.inRange b 48 57.

(** isValidLegacyRune(b, i), [atStart] standing for i = 0. A byte of a
    multi-byte rune is no letter, digit, underscore or colon, so the
    bytes can be checked in place of the runes. *)
Definition isValidLegacyRune (b : ascii) (atStart : bool) : bool :=
  isLetter b || Ascii.eqb b "_" || Ascii.eqb b ":"
  || (isDigit b && negb atStart).

Fixpoint legacyRunes (atStart : bool) (s : string) : bool :=
  match s with
  | EmptyString => true
  | String b s' => isValidLegacyRune b atStart && legacyRunes false s'
  end.

Definition nonEmpty (s : string) : bool := negb (String.eqb s "").

Definition IsValidMetricName (scheme : ValidationScheme) (n : string) : bool :=
  match scheme with
  | LegacyValidation => nonEmpty n && legacyRunes true n
  | UTF8Validation => nonEmpty n && utf8.ValidString n
  end.

(** Label names: as metric names, but without the colon in the legacy
    scheme. *)
Definition isValidLegacyLabelRune (b : ascii) (atStart : bool) : bool :=
  isLetter b || Ascii.eqb b "_" || (isDigit b && negb atStart).

Fixpoint legacyLabelRunes (atStart : bool) (s : string) : bool :=
  match s with
  | EmptyString => true
  | String b s' => isValidLegacyLabelRune b atStart && legacyLabelRunes false s'
  end.

Definition IsValidLabelName (scheme : ValidationScheme) (l : string) : bool :=
  match scheme with
  | LegacyValidation => nonEmpty l && legacyLabelRunes true l
  | UTF8Validation => nonEmpty l && utf8.ValidString l
  end.

End model.

Module prometheus.

Inductive ValueType := CounterValue | GaugeValue | UntypedValue.

(** A descriptor; [err] is the error [NewDesc] found, if any. *)
Record Desc := mkDesc {
  fqName : string;
  help : string;
  variableLabels : list string;
  constLabels : list (string * string);
  err : option error
}.

Definition nonEmpty (s : string) : bool := negb (String.eqb s "").

Definition BuildFQName (namespace subsystem name : string) : string :=
  if String.eqb name "" then ""
  else if nonEmpty namespace && nonEmpty subsystem then
    strings.Join [namespace; subsystem; name] "_"
  else if nonEmpty namespace then strings.Join [namespace; name] "_"
  else if nonEmpty subsystem then strings.Join [subsystem; name] "_"
  else name.

(** checkLabelName: a valid label name that does not start with the
    reserved prefix. *)
Definition checkLabelName (scheme : model.ValidationScheme) (l : string)
  : bool :=
  model.IsValidLabelName scheme l && negb (String.prefix "__" l).

Fixpoint distinct (l : list string) : bool :=
  match l with
  | [] => true
  | x :: l' => negb (existsb (String.eqb x) l') && distinct l'
  end.

(** validateLabelValues: the expected number of values, each of them
    valid UTF-8. *)
Definition validateLabelValues (vals : list string) (expected : nat) : bool :=
  Nat.eqb (List.length vals) expected && forallb utf8.ValidString vals.

(** NewDesc records the first fault it finds: an invalid metric name, an
    invalid constant label name, a name or constant label value that is
    not valid UTF-8, an invalid variable label name, a label name that
    occurs twice. *)
Definition NewDesc (scheme : model.ValidationScheme) (fq hlp : string)
    (labels : list string) (consts : list (string * string)) : Desc :=
  mkDesc fq hlp labels consts
    (if negb (model.IsValidMetricName scheme fq)
     then Some (mkError "not a valid metric name")
     else if negb (forallb (fun c => checkLabelName scheme (fst c)) consts)
     then Some (mkError "not a valid label name")
     else if negb (validateLabelValues (fq :: map snd consts)
                     (S (List.length consts)))
     then Some (mkError "label value is not valid UTF-8")
     else if negb (forallb (checkLabelName scheme) labels)
     then Some (mkError "not a valid label name")
     else if negb (distinct (map fst consts ++ labels))
     then Some (mkError "duplicate label names")
     else None).

(** A constant metric: the observation handed to the channel. *)
Record Metric := mkMetric {
  desc : Desc;
  valueType : ValueType;
  value : float;
  labelValues : list string
}.

(** MustNewConstMetric panics ([None]) when NewConstMetric returns an
    error: the descriptor carries one, the number of label values is not
    the number of the descriptor's variable labels, or a label value is
    not valid UTF-8. *)
Definition MustNewConstMetric (d : Desc) (vt : ValueType) (v : float)
    (labels : list string) : option Metric :=
  match err d with
  | Some _ => None
  | None =>
      if validateLabelValues labels (List.length (variableLabels d))
      then Some (mkMetric d vt v labels)
      else None
  end.

End prometheus.


(* ------------------------------------------------------------------ *)
(** ** The collector *)

Definition statDatabaseSubsystem : string := "stat_database".

(** fmt.Sprintf("SELECT %s FROM pg_stat_database;", strings.Join(columns, ",")) *)
Definition statDatabaseQuery (columns : list string) : string :=
  "SELECT " ++ strings.Join columns "," ++ " FROM pg_stat_database;".

(** The column list [Update] starts from. *)
Definition baseColumns : list string :=
  [ "datid"; "datname"; "numbackends"; "xact_commit"; "xact_rollback";
    "blks_read"; "blks_hit"; "tup_returned"; "tup_fetched"; "tup_inserted";
    "tup_updated"; "tup_deleted"; "conflicts"; "temp_files"; "temp_bytes";
    "deadlocks"; "blk_read_time"; "blk_write_time"; "stats_reset" ].

(** activeTimeAvail := instance.version.GTE(semver.MustParse("14.0.0")) *)
Definition activeTimeAvail (version : semver.Version) : bool :=
  semver.GTE version (semver.plain 14 0 0).

(** The value of [columns] when the query is issued. *)
Definition columns (version : semver.Version) : list string :=
  if activeTimeAvail version then baseColumns ++ ["active_time"]
  else baseColumns.

(** The destinations of one successful [rows.Scan], in the order of the
    slice [r]; [activeTime] is a destination only when it is requested. *)
Record Row := mkRow {
  datid : sql.NullString.t;
  datname : sql.NullString.t;
  numBackends : sql.NullFloat64.t;
  xactCommit : sql.NullFloat64.t;
  xactRollback : sql.NullFloat64.t;
  blksRead : sql.NullFloat64.t;
  blksHit : sql.NullFloat64.t;
  tupReturned : sql.NullFloat64.t;
  tupFetched : sql.NullFloat64.t;
  tupInserted : sql.NullFloat64.t;
  tupUpdated : sql.NullFloat64.t;
  tupDeleted : sql.NullFloat64.t;
  conflicts : sql.NullFloat64.t;
  tempFiles : sql.NullFloat64.t;
  tempBytes : sql.NullFloat64.t;
  deadlocks : sql.NullFloat64.t;
  blkReadTime : sql.NullFloat64.t;
  blkWriteTime : sql.NullFloat64.t;
  statsReset : sql.NullTime.t;
  activeTime : sql.NullFloat64.t
}.

(** What [rows.Scan(r...)] does on one fetched row: fail, or fill the
    destinations. *)
Inductive ScanOutcome :=
| ScanFail (err : error)
| ScanOk (row : Row).

(** What [db.QueryContext] returns for a query text: an error, or the
    stream of rows that [rows.Next] walks. *)
Inductive QueryResult :=
| QueryErr (err : error)
| QueryRows (rows : list ScanOutcome).

(** The handle [db] during one call of [Update]. A call issues a single
    query, so the handle is taken by what it answers to a query text in
    that call; a later call is another [DB], which may answer otherwise. *)
Record DB := mkDB { QueryContext : string -> QueryResult }.

(** Modelled from the spec: the type [instance] is declared in another
    file of the package. The spec hands the collector a query-capable
    handle and a resolved server version; these are the two members that
    [Update] reads, [getDB()] and [version]. *)
Record instance := mkInstance {
  getDB : DB;
  version : semver.Version
}.

(** The two effects of [Update]: metrics sent on [ch], oldest first, and
    the messages given to [c.log.Debug]. *)
Record World := mkWorld {
  ch : list prometheus.Metric;
  debugLog : list string
}.

(** How a statement of the loop body ends. *)
Inductive Flow (A : Type) : Type :=
| Normal (a : A)
| Continue
| Return (err : error)
| Panic.

Arguments Normal {A} a.
Arguments Continue {A}.
Arguments Return {A} err.
Arguments Panic {A}.

Definition Stmt (A : Type) : Type := World -> Flow A * World.

Definition ret {A : Type} (a : A) : Stmt A := fun w => (Normal a, w).

Definition bind {A B : Type} (s : Stmt A) (k : A -> Stmt B) : Stmt B :=
  fun w =>
    match s w with
    | (Normal a, w') => k a w'
    | (Continue, w') => (Continue, w')
    | (Return err, w') => (Return err, w')
    | (Panic, w') => (Panic, w')
    end.

Notation "s1 ;; s2" := (bind s1 (fun _ => s2))
  (at level 61, right associativity).

Definition Debug (msg : string) : Stmt unit :=
  fun w => (Normal tt, mkWorld (ch w) (debugLog w ++ [msg])).

Definition continue : Stmt unit := fun w => (Continue, w).

Definition returnErr (err : error) : Stmt unit := fun w => (Return err, w).

(** ch <- prometheus.MustNewConstMetric(...) *)
Definition send (m : option prometheus.Metric) : Stmt unit :=
  fun w =>
    match m with
    | Some m => (Normal tt, mkWorld (ch w ++ [m]) (debugLog w))
    | None => (Panic, w)
    end.

(** if !x.Valid { c.log.Debug(msg); continue } *)
Definition skipUnless (valid : bool) (msg : string) : Stmt unit :=
  if negb valid then Debug msg ;; continue else ret tt.

(** for rows.Next() { body } *)
Fixpoint forRows (body : ScanOutcome -> Stmt unit) (rows : list ScanOutcome)
  : Stmt unit :=
  match rows with
  | [] => ret tt
  | scan :: rest =>
      fun w =>
        match body scan w with
        | (Normal _, w') => forRows body rest w'
        | (Continue, w') => forRows body rest w'
        | (Return err, w') => (Return err, w')
        | (Panic, w') => (Panic, w')
        end
  end.

(** How a call of [Update] ends: with its [error] result (nil is [None]),
    or in a panic. *)
Inductive Result :=
| Returned (err : option error)
| Panicked.


Section Collector.

(** The package constant [namespace] is declared in another file of the
    package; the collector is verified for every value of it. *)
Variable namespace : string.

(** The package variable model.NameValidationScheme of the metrics
    library, read when the descriptors are built; the collector is
    verified for both of its values. *)
Variable NameValidationScheme : model.ValidationScheme.

Definition statDatabaseNumbackends : prometheus.Desc :=
  prometheus.NewDesc NameValidationScheme
    (prometheus.BuildFQName namespace statDatabaseSubsystem "numbackends")
    "Number of backends currently connected to this database. This is the only column in this view that returns a value reflecting current state; all other columns return the accumulated values since the last reset."
    ["datid"; "datname"]
    [].

Definition statDatabaseXactCommit : prometheus.Desc :=
  prometheus.NewDesc NameValidationScheme
    (prometheus.BuildFQName namespace statDatabaseSubsystem "xact_commit")
    "Number of transactions in this database that have been committed"
    ["datid"; "datname"]
    [].

Definition statDatabaseXactRollback : prometheus.Desc :=
  prometheus.NewDesc NameValidationScheme
    (prometheus.BuildFQName namespace statDatabaseSubsystem "xact_rollback")
    "Number of transactions in this database that have been rolled back"
    ["datid"; "datname"]
    [].

Definition statDatabaseBlksRead : prometheus.Desc :=
  prometheus.NewDesc NameValidationScheme
    (prometheus.BuildFQName namespace statDatabaseSubsystem "blks_read")
    "Number of disk blocks read in this database"
    ["datid"; "datname"]
    [].

Definition statDatabaseBlksHit : prometheus.Desc :=
  prometheus.NewDesc NameValidationScheme
    (prometheus.BuildFQName namespace statDatabaseSubsystem "blks_hit")
    "Number of times disk blocks were found already in the buffer cache, so that a read was not necessary (this only includes hits in the PostgreSQL buffer cache, not the operating system's file system cache)"
    ["datid"; "datname"]
    [].

Definition statDatabaseTupReturned : prometheus.Desc :=
  prometheus.NewDesc NameValidationScheme
    (prometheus.BuildFQName namespace statDatabaseSubsystem "tup_returned")
    "Number of rows returned by queries in this database"
    ["datid"; "datname"]
    [].

Definition statDatabaseTupFetched : prometheus.Desc :=
  prometheus.NewDesc NameValidationScheme
    (prometheus.BuildFQName namespace statDatabaseSubsystem "tup_fetched")
    "Number of rows fetched by queries in this database"
    ["datid"; "datname"]
    [].

Definition statDatabaseTupInserted : prometheus.Desc :=
  prometheus.NewDesc NameValidationScheme
    (prometheus.BuildFQName namespace statDatabaseSubsystem "tup_inserted")
    "Number of rows inserted by queries in this database"
    ["datid"; "datname"]
    [].

Definition statDatabaseTupUpdated : prometheus.Desc :=
  prometheus.NewDesc NameValidationScheme
    (prometheus.BuildFQName namespace statDatabaseSubsystem "tup_updated")
    "Number of rows updated by queries in this database"
    ["datid"; "datname"]
    [].

Definition statDatabaseTupDeleted : prometheus.Desc :=
  prometheus.NewDesc NameValidationScheme
    (prometheus.BuildFQName namespace statDatabaseSubsystem "tup_deleted")
    "Number of rows deleted by queries in this database"
    ["datid"; "datname"]
    [].

Definition statDatabaseConflicts : prometheus.Desc :=
  prometheus.NewDesc NameValidationScheme
    (prometheus.BuildFQName namespace statDatabaseSubsystem "conflicts")
    "Number of queries canceled due to conflicts with recovery in this database. (Conflicts occur only on standby servers; see pg_stat_database_conflicts for details.)"
    ["datid"; "datname"]
    [].

Definition statDatabaseTempFiles : prometheus.Desc :=
  prometheus.NewDesc NameValidationScheme
    (prometheus.BuildFQName namespace statDatabaseSubsystem "temp_files")
    "Number of temporary files created by queries in this database. All temporary files are counted, regardless of why the temporary file was created (e.g., sorting or hashing), and regardless of the log_temp_files setting."
    ["datid"; "datname"]
    [].

Definition statDatabaseTempBytes : prometheus.Desc :=
  prometheus.NewDesc NameValidationScheme
    (prometheus.BuildFQName namespace statDatabaseSubsystem "temp_bytes")
    "Total amount of data written to temporary files by queries in this database. All temporary files are counted, regardless of why the temporary file was created, and regardless of the log_temp_files setting."
    ["datid"; "datname"]
    [].

Definition statDatabaseDeadlocks : prometheus.Desc :=
  prometheus.NewDesc NameValidationScheme
    (prometheus.BuildFQName namespace statDatabaseSubsystem "deadlocks")
    "Number of deadlocks detected in this database"
    ["datid"; "datname"]
    [].

Definition statDatabaseBlkReadTime : prometheus.Desc :=
  prometheus.NewDesc NameValidationScheme
    (prometheus.BuildFQName namespace statDatabaseSubsystem "blk_read_time")
    "Time spent reading data file blocks by backends in this database, in milliseconds"
    ["datid"; "datname"]
    [].

Definition statDatabaseBlkWriteTime : prometheus.Desc :=
  prometheus.NewDesc NameValidationScheme
    (prometheus.BuildFQName namespace statDatabaseSubsystem "blk_write_time")
    "Time spent writing data file blocks by backends in this database, in milliseconds"
    ["datid"; "datname"]
    [].

Definition statDatabaseStatsReset : prometheus.Desc :=
  prometheus.NewDesc NameValidationScheme
    (prometheus.BuildFQName namespace statDatabaseSubsystem "stats_reset")
    "Time at which these statistics were last reset"
    ["datid"; "datname"]
    [].

Definition statDatabaseActiveTime : prometheus.Desc :=
  prometheus.NewDesc NameValidationScheme
    (prometheus.BuildFQName namespace statDatabaseSubsystem "active_time_seconds_total")
    "Time spent executing SQL statements in this database, in seconds"
    ["datid"; "datname"]
    [].

(** The body of the loop over the result rows. *)
Definition loopBody (activeTimeAvail : bool) (scan : ScanOutcome) : Stmt unit :=
  match scan with
  | ScanFail err => returnErr err
  | ScanOk row =>
    let datid := datid row in
    let datname := datname row in
    let numBackends := numBackends row in
    let xactCommit := xactCommit row in
    let xactRollback := xactRollback row in
    let blksRead := blksRead row in
    let blksHit := blksHit row in
    let tupReturned := tupReturned row in
    let tupFetched := tupFetched row in
    let tupInserted := tupInserted row in
    let tupUpdated := tupUpdated row in
    let tupDeleted := tupDeleted row in
    let conflicts := conflicts row in
    let tempFiles := tempFiles row in
    let tempBytes := tempBytes row in
    let deadlocks := deadlocks row in
    let blkReadTime := blkReadTime row in
    let blkWriteTime := blkWriteTime row in
    let statsReset := statsReset row in
    let activeTime :=
      if activeTimeAvail then activeTime row else sql.NullFloat64.zero in
    skipUnless (sql.NullString.Valid datid)
      "Skipping collecting metric because it has no datid" ;;
    skipUnless (sql.NullString.Valid datname)
      "Skipping collecting metric because it has no datname" ;;
    skipUnless (sql.NullFloat64.Valid numBackends)
      "Skipping collecting metric because it has no numbackends" ;;
    skipUnless (sql.NullFloat64.Valid xactCommit)
      "Skipping collecting metric because it has no xact_commit" ;;
    skipUnless (sql.NullFloat64.Valid xactRollback)
      "Skipping collecting metric because it has no xact_rollback" ;;
    skipUnless (sql.NullFloat64.Valid blksRead)
      "Skipping collecting metric because it has no blks_read" ;;
    skipUnless (sql.NullFloat64.Valid blksHit)
      "Skipping collecting metric because it has no blks_hit" ;;
    skipUnless (sql.NullFloat64.Valid tupReturned)
      "Skipping collecting metric because it has no tup_returned" ;;
    skipUnless (sql.NullFloat64.Valid tupFetched)
      "Skipping collecting metric because it has no tup_fetched" ;;
    skipUnless (sql.NullFloat64.Valid tupInserted)
      "Skipping collecting metric because it has no tup_inserted" ;;
    skipUnless (sql.NullFloat64.Valid tupUpdated)
      "Skipping collecting metric because it has no tup_updated" ;;
    skipUnless (sql.NullFloat64.Valid tupDeleted)
      "Skipping collecting metric because it has no tup_deleted" ;;
    skipUnless (sql.NullFloat64.Valid conflicts)
      "Skipping collecting metric because it has no conflicts" ;;
    skipUnless (sql.NullFloat64.Valid tempFiles)
      "Skipping collecting metric because it has no temp_files" ;;
    skipUnless (sql.NullFloat64.Valid tempBytes)
      "Skipping collecting metric because it has no temp_bytes" ;;
    skipUnless (sql.NullFloat64.Valid deadlocks)
      "Skipping collecting metric because it has no deadlocks" ;;
    skipUnless (sql.NullFloat64.Valid blkReadTime)
      "Skipping collecting metric because it has no blk_read_time" ;;
    skipUnless (sql.NullFloat64.Valid blkWriteTime)
      "Skipping collecting metric because it has no blk_write_time" ;;
    (if activeTimeAvail && negb (sql.NullFloat64.Valid activeTime)
     then Debug "Skipping collecting metric because it has no active_time" ;; continue
     else ret tt) ;;
    (if negb (sql.NullTime.Valid statsReset)
     then Debug "No metric for stats_reset, will collect 0 instead"
     else ret tt) ;;
    let statsResetMetric :=
      if sql.NullTime.Valid statsReset
      then float64_of_int64 (sql.Unix (sql.NullTime.Time statsReset))
      else 0%float in
    let labels :=
      [sql.NullString.String datid; sql.NullString.String datname] in
    send (prometheus.MustNewConstMetric statDatabaseNumbackends
            prometheus.GaugeValue (sql.NullFloat64.Float64 numBackends) labels) ;;
    send (prometheus.MustNewConstMetric statDatabaseXactCommit
            prometheus.CounterValue (sql.NullFloat64.Float64 xactCommit) labels) ;;
    send (prometheus.MustNewConstMetric statDatabaseXactRollback
            prometheus.CounterValue (sql.NullFloat64.Float64 xactRollback) labels) ;;
    send (prometheus.MustNewConstMetric statDatabaseBlksRead
            prometheus.CounterValue (sql.NullFloat64.Float64 blksRead) labels) ;;
    send (prometheus.MustNewConstMetric statDatabaseBlksHit
            prometheus.CounterValue (sql.NullFloat64.Float64 blksHit) labels) ;;
    send (prometheus.MustNewConstMetric statDatabaseTupReturned
            prometheus.CounterValue (sql.NullFloat64.Float64 tupReturned) labels) ;;
    send (prometheus.MustNewConstMetric statDatabaseTupFetched
            prometheus.CounterValue (sql.NullFloat64.Float64 tupFetched) labels) ;;
    send (prometheus.MustNewConstMetric statDatabaseTupInserted
            prometheus.CounterValue (sql.NullFloat64.Float64 tupInserted) labels) ;;
    send (prometheus.MustNewConstMetric statDatabaseTupUpdated
            prometheus.CounterValue (sql.NullFloat64.Float64 tupUpdated) labels) ;;
    send (prometheus.MustNewConstMetric statDatabaseTupDeleted
            prometheus.CounterValue (sql.NullFloat64.Float64 tupDeleted) labels) ;;
    send (prometheus.MustNewConstMetric statDatabaseConflicts
            prometheus.CounterValue (sql.NullFloat64.Float64 conflicts) labels) ;;
    send (prometheus.MustNewConstMetric statDatabaseTempFiles
            prometheus.CounterValue (sql.NullFloat64.Float64 tempFiles) labels) ;;
    send (prometheus.MustNewConstMetric statDatabaseTempBytes
            prometheus.CounterValue (sql.NullFloat64.Float64 tempBytes) labels) ;;
    send (prometheus.MustNewConstMetric statDatabaseDeadlocks
            prometheus.CounterValue (sql.NullFloat64.Float64 deadlocks) labels) ;;
    send (prometheus.MustNewConstMetric statDatabaseBlkReadTime
            prometheus.CounterValue (sql.NullFloat64.Float64 blkReadTime) labels) ;;
    send (prometheus.MustNewConstMetric statDatabaseBlkWriteTime
            prometheus.CounterValue (sql.NullFloat64.Float64 blkWriteTime) labels) ;;
    send (prometheus.MustNewConstMetric statDatabaseStatsReset
            prometheus.CounterValue statsResetMetric labels) ;;
    (if activeTimeAvail
     then send (prometheus.MustNewConstMetric statDatabaseActiveTime
            prometheus.CounterValue (sql.NullFloat64.Float64 activeTime / 1000)%float labels)
     else ret tt)
  end.

(** PGStatDatabaseCollector.Update *)
Definition Update (instance : instance) : World -> Result * World :=
  fun w =>
    let db := getDB instance in
    let activeTimeAvail := activeTimeAvail (version instance) in
    match QueryContext db (statDatabaseQuery (columns (version instance))) with
    | QueryErr err => (Returned (Some err), w)
    | QueryRows rows =>
        match forRows (loopBody activeTimeAvail) rows w with
        | (Return err, w') => (Returned (Some err), w')
        | (Panic, w') => (Panicked, w')
        | (_, w') => (Returned None, w')
        end
    end.

(* ------------------------------------------------------------------ *)
(** ** Vocabulary of the properties *)

(** A world in which nothing was sent or logged yet. *)
Definition emptyWorld : World := mkWorld [] [].

(** The observations and the diagnostics one scanned row gives rise to:
    what the loop body sends and logs when it starts from [emptyWorld]. *)
Definition observations (avail : bool) (r : Row) : list prometheus.Metric :=
  ch (snd (loopBody avail (ScanOk r) emptyWorld)).

Definition diagnostics (avail : bool) (r : Row) : list string :=
  debugLog (snd (loopBody avail (ScanOk r) emptyWorld)).

(** The answer of the database to the query [Update] issues. *)
Definition served (i : instance) : QueryResult :=
  QueryContext (getDB i) (statDatabaseQuery (columns (version i))).

(** The metric catalog: for each column that feeds a metric, its
    descriptor, its kind, and the value read from a row. *)
Record Entry := mkEntry {
  column : string;
  descriptor : prometheus.Desc;
  kind : prometheus.ValueType;
  reading : Row -> float
}.

Definition catalog : list Entry :=
  [
    mkEntry "numbackends" statDatabaseNumbackends prometheus.GaugeValue
      (fun r => sql.NullFloat64.Float64 (numBackends r));
    mkEntry "xact_commit" statDatabaseXactCommit prometheus.CounterValue
      (fun r => sql.NullFloat64.Float64 (xactCommit r));
    mkEntry "xact_rollback" statDatabaseXactRollback prometheus.CounterValue
      (fun r => sql.NullFloat64.Float64 (xactRollback r));
    mkEntry "blks_read" statDatabaseBlksRead prometheus.CounterValue
      (fun r => sql.NullFloat64.Float64 (blksRead r));
    mkEntry "blks_hit" statDatabaseBlksHit prometheus.CounterValue
      (fun r => sql.NullFloat64.Float64 (blksHit r));
    mkEntry "tup_returned" statDatabaseTupReturned prometheus.CounterValue
      (fun r => sql.NullFloat64.Float64 (tupReturned r));
    mkEntry "tup_fetched" statDatabaseTupFetched prometheus.CounterValue
      (fun r => sql.NullFloat64.Float64 (tupFetched r));
    mkEntry "tup_inserted" statDatabaseTupInserted prometheus.CounterValue
      (fun r => sql.NullFloat64.Float64 (tupInserted r));
    mkEntry "tup_updated" statDatabaseTupUpdated prometheus.CounterValue
      (fun r => sql.NullFloat64.Float64 (tupUpdated r));
    mkEntry "tup_deleted" statDatabaseTupDeleted prometheus.CounterValue
      (fun r => sql.NullFloat64.Float64 (tupDeleted r));
    mkEntry "conflicts" statDatabaseConflicts prometheus.CounterValue
      (fun r => sql.NullFloat64.Float64 (conflicts r));
    mkEntry "temp_files" statDatabaseTempFiles prometheus.CounterValue
      (fun r => sql.NullFloat64.Float64 (tempFiles r));
    mkEntry "temp_bytes" statDatabaseTempBytes prometheus.CounterValue
      (fun r => sql.NullFloat64.Float64 (tempBytes r));
    mkEntry "deadlocks" statDatabaseDeadlocks prometheus.CounterValue
      (fun r => sql.NullFloat64.Float64 (deadlocks r));
    mkEntry "blk_read_time" statDatabaseBlkReadTime prometheus.CounterValue
      (fun r => sql.NullFloat64.Float64 (blkReadTime r));
    mkEntry "blk_write_time" statDatabaseBlkWriteTime prometheus.CounterValue
      (fun r => sql.NullFloat64.Float64 (blkWriteTime r));
    mkEntry "stats_reset" statDatabaseStatsReset prometheus.CounterValue
      (fun r => if sql.NullTime.Valid (statsReset r)
               then float64_of_int64 (sql.Unix (sql.NullTime.Time (statsReset r)))
               else 0%float);
    mkEntry "active_time" statDatabaseActiveTime prometheus.CounterValue
      (fun r => (sql.NullFloat64.Float64 (activeTime r) / 1000)%float)
  ].

(** The catalog entries whose column is among the requested ones. *)
Definition activeCatalog (cols : list string) : list Entry :=
  filter (fun e => existsb (String.eqb (column e)) cols) catalog.

Definition labelsOf (r : Row) : list string :=
  [sql.NullString.String (datid r); sql.NullString.String (datname r)].

Definition observe (r : Row) (e : Entry) : prometheus.Metric :=
  prometheus.mkMetric (descriptor e) (kind e) (reading e r) (labelsOf r).

(** The complete set of observations of a row for a column set. *)
Definition completeSet (cols : list string) (r : Row) : list prometheus.Metric :=
  map (observe r) (activeCatalog cols).

Definition identityPresent (r : Row) : bool :=
  sql.NullString.Valid (datid r) && sql.NullString.Valid (datname r).

(** The numeric columns other than the reset timestamp in which the row
    has a value, [active_time] counting only when it is requested. *)
Definition numericPresent (avail : bool) (r : Row) : bool :=
  sql.NullFloat64.Valid (numBackends r) &&
  sql.NullFloat64.Valid (xactCommit r) &&
  sql.NullFloat64.Valid (xactRollback r) &&
  sql.NullFloat64.Valid (blksRead r) &&
  sql.NullFloat64.Valid (blksHit r) &&
  sql.NullFloat64.Valid (tupReturned r) &&
  sql.NullFloat64.Valid (tupFetched r) &&
  sql.NullFloat64.Valid (tupInserted r) &&
  sql.NullFloat64.Valid (tupUpdated r) &&
  sql.NullFloat64.Valid (tupDeleted r) &&
  sql.NullFloat64.Valid (conflicts r) &&
  sql.NullFloat64.Valid (tempFiles r) &&
  sql.NullFloat64.Valid (tempBytes r) &&
  sql.NullFloat64.Valid (deadlocks r) &&
  sql.NullFloat64.Valid (blkReadTime r) &&
  sql.NullFloat64.Valid (blkWriteTime r) &&
  (negb avail || sql.NullFloat64.Valid (activeTime r)).

Definition allPresent (avail : bool) (r : Row) : bool :=
  identityPresent r && numericPresent avail r
  && sql.NullTime.Valid (statsReset r).

Definition isGauge (m : prometheus.Metric) : bool :=
  match prometheus.valueType m with
  | prometheus.GaugeValue => true
  | _ => false
  end.


(** The column set for a value of [activeTimeAvail]. *)
Definition columnsWhen (avail : bool) : list string :=
  if avail then baseColumns ++ ["active_time"] else baseColumns.

(** The version-gated columns and the version each needs. *)
Definition versionGated : list (string * semver.Version) :=
  [("active_time", semver.plain 14 0 0)].

Definition isGated (c : string) : bool :=
  existsb (String.eqb c) (map fst versionGated).

(** Successfully scanned rows as a result stream. *)
Definition scanned (rs : list Row) : list ScanOutcome := map ScanOk rs.

(** Sample data: the row of database "appdb" (id "12345"), with a choice
    of which values are present. *)
Definition num (x : float) : sql.NullFloat64.t := sql.NullFloat64.mk x true.

Definition sampleRow (nameValid deadlocksValid resetValid : bool)
    (activeMillis : float) : Row :=
  mkRow (sql.NullString.mk "12345" true) (sql.NullString.mk "appdb" nameValid)
    (num 3) (num 1000) (num 7) (num 250) (num 90000) (num 5000) (num 4000)
    (num 300) (num 200) (num 10) (num 0) (num 2) (num 8192)
    (sql.NullFloat64.mk 1 deadlocksValid) (num 12.5) (num 3.25)
    (sql.NullTime.mk (sql.mkTime 1700000000) resetValid)
    (num activeMillis).

Definition fullRow : Row := sampleRow true true true 4200.


Definition rowNoDeadlocks : Row := sampleRow true false true 4200.

Definition rowNoReset : Row := sampleRow true true false 4200.

Definition v13 : semver.Version := semver.plain 13 0 0.

Definition v14_2 : semver.Version := semver.plain 14 2 0.

(** An instance whose database gives the same answer to every query. *)
Definition instanceOf (v : semver.Version) (result : QueryResult) : instance :=
  mkInstance (mkDB (fun _ => result)) v.

(** The guards of the loop body in their order: the column each names in
    its message, and whether the row has a value there. The guard of
    [active_time] is there only when the column is requested. *)
Definition guarded (avail : bool) (r : Row) : list (string * bool) :=
  [
    ("datid", sql.NullString.Valid (datid r));
    ("datname", sql.NullString.Valid (datname r));
    ("numbackends", sql.NullFloat64.Valid (numBackends r));
    ("xact_commit", sql.NullFloat64.Valid (xactCommit r));
    ("xact_rollback", sql.NullFloat64.Valid (xactRollback r));
    ("blks_read", sql.NullFloat64.Valid (blksRead r));
    ("blks_hit", sql.NullFloat64.Valid (blksHit r));
    ("tup_returned", sql.NullFloat64.Valid (tupReturned r));
    ("tup_fetched", sql.NullFloat64.Valid (tupFetched r));
    ("tup_inserted", sql.NullFloat64.Valid (tupInserted r));
    ("tup_updated", sql.NullFloat64.Valid (tupUpdated r));
    ("tup_deleted", sql.NullFloat64.Valid (tupDeleted r));
    ("conflicts", sql.NullFloat64.Valid (conflicts r));
    ("temp_files", sql.NullFloat64.Valid (tempFiles r));
    ("temp_bytes", sql.NullFloat64.Valid (tempBytes r));
    ("deadlocks", sql.NullFloat64.Valid (deadlocks r));
    ("blk_read_time", sql.NullFloat64.Valid (blkReadTime r));
    ("blk_write_time", sql.NullFloat64.Valid (blkWriteTime r))
  ] ++ (if avail
        then [("active_time", sql.NullFloat64.Valid (activeTime r))]
        else []).

(** The first column of a list of guards in which the value is absent. *)
Definition firstAbsent (gs : list (string * bool)) : option string :=
  match find (fun g => negb (snd g)) gs with
  | Some g => Some (fst g)
  | None => None
  end.

(** The rows that pass every guard. *)
Definition reachesEmission (avail : bool) (r : Row) : bool :=
  identityPresent r && numericPresent avail r.

(** The part of a descriptor name that precedes the metric's own name. *)
Definition namePrefix : string :=
  if prometheus.nonEmpty namespace
  then namespace ++ "_stat_database_"
  else "stat_database_".

(** The metrics' own names, in catalog order. *)
Definition shortNames : list string :=
  [ "numbackends"; "xact_commit"; "xact_rollback"; "blks_read"; "blks_hit";
    "tup_returned"; "tup_fetched"; "tup_inserted"; "tup_updated";
    "tup_deleted"; "conflicts"; "temp_files"; "temp_bytes"; "deadlocks";
    "blk_read_time"; "blk_write_time"; "stats_reset";
    "active_time_seconds_total" ].

(** The version [v] with other build metadata. *)
Definition withBuild (v : semver.Version) (b : list string) : semver.Version :=
  semver.mkVersion (semver.Major v) (semver.Minor v) (semver.Patch v)
    (semver.Pre v) b.

(** Sample data: a pre-release of 14.0.0, and result streams. *)
Definition v14_beta1 : semver.Version :=
  semver.mkVersion 14 0 0 [semver.mkPR "beta1" 0 false] [].

Definition mixedStream : list ScanOutcome :=
  scanned [fullRow; rowNoDeadlocks; fullRow].

Definition brokenStream : list ScanOutcome :=
  scanned [fullRow] ++ [ScanFail (mkError "bad scan"); ScanOk fullRow].

(** Whether the two label values of a row are valid UTF-8. *)
Definition sendable (r : Row) : bool :=
  utf8.ValidString (sql.NullString.String (datid r))
  && utf8.ValidString (sql.NullString.String (datname r)).

(** Whether the namespace gives valid descriptor names: an empty one
    does, another one when it is a valid name start in the legacy scheme,
    respectively valid UTF-8 in the other. *)
Definition namespaceUsable : bool :=
  if prometheus.nonEmpty namespace
  then match NameValidationScheme with
       | model.LegacyValidation => model.legacyRunes true namespace
       | model.UTF8Validation => utf8.ValidString namespace
       end
  else true.

(** Whether a descriptor was built without error. *)
Definition usable (d : prometheus.Desc) : bool :=
  match prometheus.err d with
  | None => true
  | Some _ => false
  end.

(** The rows on which the loop body does not panic: those that stop at a
    guard, and those whose metrics can be built. *)
Definition clean (avail : bool) (r : Row) : bool :=
  negb (reachesEmission avail r) || (namespaceUsable && sendable r).

(** Texts of ASCII bytes only. *)
Fixpoint asciiOnly (s : string) : bool :=
  match s with
  | EmptyString => true
  | String b s' => N.ltb (utf8.byte b) 128 && asciiOnly s'
  end.

(** The states of the UTF-8 scan in which the next byte cannot be ASCII. *)
Definition expectsHighByte (q : utf8.Scan) : Prop :=
  match q with
  | utf8.Between => False
  | utf8.Inside _ lo _ => (128 <= lo)%N
  end.

(** Sample data: a name that is not valid UTF-8 (a lone byte 0xE9), and
    the row of a database of that name. *)
Definition latin1Name : string := "caf" ++ String (ascii_of_N 233) "".

Definition rowBadName : Row :=
  mkRow (sql.NullString.mk "12345" true) (sql.NullString.mk latin1Name true)
    (num 3) (num 1000) (num 7) (num 250) (num 90000) (num 5000) (num 4000)
    (num 300) (num 200) (num 10) (num 0) (num 2) (num 8192)
    (num 1) (num 12.5) (num 3.25)
    (sql.NullTime.mk (sql.mkTime 1700000000) true)
    (num 4200).

Definition panickingStream : list ScanOutcome :=
  scanned [fullRow] ++ [ScanOk rowBadName; ScanOk fullRow].

(** The world [w] after the effects recorded in [d] were added to it. *)
Definition extend (w d : World) : World :=
  mkWorld (ch w ++ ch d) (debugLog w ++ debugLog d).

(** A statement is framed when it only adds to the world, and what it adds
    and how it ends do not depend on the world it starts from. *)
Definition framed {A : Type} (s : Stmt A) : Prop :=
  forall w, s w = (fst (s emptyWorld), extend w (snd (s emptyWorld))).

(** How [Update] ends for a flow of the loop. *)
Definition resultOf (f : Flow unit) : Result :=
  match f with
  | Return err => Returned (Some err)
  | Panic => Panicked
  | _ => Returned None
  end.

(** The message logged when the reset timestamp is absent. *)
Definition resetNote (r : Row) : list string :=
  if sql.NullTime.Valid (statsReset r) then []
  else ["No metric for stats_reset, will collect 0 instead"].

(* ------------------------------------------------------------------ *)
(** ** Names and label values *)

Lemma append_assoc (a b c : string) :
  ((a ++ b) ++ c = a ++ (b ++ c))%string.
Proof. induction a as [|x a IH]; cbn; [reflexivity|now rewrite IH]. Qed.

Lemma exec_app (q : utf8.Scan) (a t : string) :
  utf8.exec q (a ++ t)
  = match utf8.exec q a with
    | Some q' => utf8.exec q' t
    | None => None
    end.
Proof.
  revert q. induction a as [|b a IH]; intro q; cbn [append utf8.exec];
    [reflexivity|].
  destruct (utf8.step q b) as [q'|]; [apply IH|reflexivity].
Qed.

Lemma exec_ascii (t : string) :
  asciiOnly t = true -> utf8.exec utf8.Between t = Some utf8.Between.
Proof.
  induction t as [|b t IH]; cbn [asciiOnly utf8.exec utf8.step];
    [reflexivity|].
  intro H. apply andb_true_iff in H as [Hb Ht]. rewrite Hb. exact (IH Ht).
Qed.

Lemma first_high (b : ascii) (more : nat) (lo hi : N) :
  utf8.first b = Some (more, lo, hi) -> (128 <= lo)%N.
Proof.
  unfold utf8.first. cbv zeta.
  repeat match goal with
         | |- context [if ?c then _ else _] => destruct c
         end;
    intro H; inversion H; subst; lia.
Qed.

Lemma exec_expects (a : string) (q q' : utf8.Scan) :
  q = utf8.Between \/ expectsHighByte q ->
  utf8.exec q a = Some q' ->
  q' = utf8.Between \/ expectsHighByte q'.
Proof.
  revert q. induction a as [|b a IH]; intros q Hq; cbn [utf8.exec].
  - intro E. injection E as <-. exact Hq.
  - destruct (utf8.step q b) as [q1|] eqn:Es; [|discriminate].
    apply IH. destruct q as [|more lo hi]; cbn [utf8.step] in Es.
    + destruct (N.ltb (utf8.byte b) 128); [injection Es as <-; now left|].
      destruct (utf8.first b) as [[[m l] h]|] eqn:Ef; [|discriminate].
      injection Es as <-. right. exact (first_high b m l h Ef).
    + destruct (utf8.inRange b lo hi); [|discriminate].
      injection Es as <-. destruct more; [now left|right; cbn; lia].
Qed.

Lemma inside_rejects_ascii (more : nat) (lo hi : N) (t : string) :
  (128 <= lo)%N -> asciiOnly t = true -> t <> "" ->
  utf8.exec (utf8.Inside more lo hi) t = None.
Proof.
  intros Hlo Ht Hne. destruct t as [|b t]; [congruence|].
  cbn [asciiOnly] in Ht. apply andb_true_iff in Ht as [Hb _].
  apply N.ltb_lt in Hb. cbn [utf8.exec utf8.step]. unfold utf8.inRange.
  destruct (N.leb_spec lo (utf8.byte b)); [lia|reflexivity].
Qed.

(** A text followed by ASCII is valid UTF-8 exactly when the text is. *)
Lemma ValidString_app_ascii (a t : string) :
  asciiOnly t = true -> t <> "" ->
  utf8.ValidString (a ++ t) = utf8.ValidString a.
Proof.
  intros Ht Hne. unfold utf8.ValidString. rewrite exec_app.
  destruct (utf8.exec utf8.Between a) as [[|more lo hi]|] eqn:E.
  - now rewrite (exec_ascii t Ht).
  - destruct (exec_expects a utf8.Between _ (or_introl eq_refl) E)
      as [Hq|Hq]; [discriminate Hq|].
    now rewrite (inside_rejects_ascii more lo hi t Hq Ht Hne).
  - reflexivity.
Qed.

Lemma legacy_rune_ascii (b : ascii) (atStart : bool) :
  model.isValidLegacyRune b atStart = true ->
  N.ltb (utf8.byte b) 128 = true.
Proof.
  unfold model.isValidLegacyRune, model.isLetter, model.isDigit,
    utf8.inRange.
  intro H. apply N.ltb_lt.
  repeat match type of H with
         | (_ || _ = true) => apply orb_true_iff in H as [H|H]
         end;
    try (apply Ascii.eqb_eq in H; subst b; reflexivity);
    repeat match type of H with
           | (_ && _ = true) =>
               let H' := fresh in apply andb_true_iff in H as [H H']
           end;
    repeat match goal with
           | E : N.leb _ _ = true |- _ => apply N.leb_le in E
           end;
    lia.
Qed.

Lemma legacy_ascii (atStart : bool) (s : string) :
  model.legacyRunes atStart s = true -> asciiOnly s = true.
Proof.
  revert atStart. induction s as [|b s IH]; intro atStart; [reflexivity|].
  cbn [model.legacyRunes asciiOnly]. intro H.
  apply andb_true_iff in H as [Hb Hs].
  now rewrite (legacy_rune_ascii b atStart Hb), (IH false Hs).
Qed.

Lemma legacyRunes_app (atStart : bool) (a t : string) :
  a <> "" ->
  model.legacyRunes atStart (a ++ t)
  = model.legacyRunes atStart a && model.legacyRunes false t.
Proof.
  assert (H : forall a, model.legacyRunes false (a ++ t)
                        = model.legacyRunes false a
                          && model.legacyRunes false t).
  { induction a0 as [|b a0 IH]; cbn [append model.legacyRunes];
      [reflexivity|]. now rewrite IH, andb_assoc. }
  destruct a as [|b a]; [congruence|]. intros _.
  cbn [append model.legacyRunes]. now rewrite H, andb_assoc.
Qed.

(** A non-empty text followed by characters that may continue a legacy
    name is a usable metric name exactly when the text may start one,
    respectively is valid UTF-8. *)
Lemma name_usable (ns t : string) :
  ns <> "" -> t <> "" -> model.legacyRunes false t = true ->
  model.IsValidMetricName NameValidationScheme (ns ++ t)
  && utf8.ValidString (ns ++ t)
  = match NameValidationScheme with
    | model.LegacyValidation => model.legacyRunes true ns
    | model.UTF8Validation => utf8.ValidString ns
    end.
Proof.
  intros Hns Hne Ht.
  assert (Ha : asciiOnly t = true) by exact (legacy_ascii false t Ht).
  assert (Hn : model.nonEmpty (ns ++ t) = true)
    by (destruct ns; [congruence|reflexivity]).
  rewrite (ValidString_app_ascii ns t Ha Hne).
  destruct NameValidationScheme; cbn [model.IsValidMetricName]; rewrite Hn;
    cbn [andb].
  - rewrite (legacyRunes_app true ns t Hns), Ht, andb_true_r.
    destruct (model.legacyRunes true ns) eqn:E; [|reflexivity].
    unfold utf8.ValidString.
    now rewrite (exec_ascii ns (legacy_ascii true ns E)).
  - rewrite (ValidString_app_ascii ns t Ha Hne). apply andb_diag.
Qed.

Lemma NewDesc_usable (fq hlp : string) :
  usable (prometheus.NewDesc NameValidationScheme fq hlp
            ["datid"; "datname"] [])
  = model.IsValidMetricName NameValidationScheme fq && utf8.ValidString fq.
Proof.
  unfold usable, prometheus.NewDesc. cbn [prometheus.err].
  destruct (model.IsValidMetricName NameValidationScheme fq);
    cbn [negb andb]; [|reflexivity].
  unfold prometheus.validateLabelValues.
  cbn [forallb map List.length Nat.eqb negb andb].
  destruct (utf8.ValidString fq); cbn [negb andb]; [|reflexivity].
  now destruct NameValidationScheme.
Qed.

(** The name of a descriptor of this subsystem. *)
Lemma BuildFQName_stat_database (name : string) :
  name <> "" ->
  prometheus.BuildFQName namespace statDatabaseSubsystem name
  = (namePrefix ++ name)%string.
Proof.
  intro Hn. unfold prometheus.BuildFQName, namePrefix.
  destruct name as [|c name]; [congruence|]. cbn [String.eqb].
  destruct (prometheus.nonEmpty namespace); cbn [andb strings.Join];
    [|reflexivity].
  now rewrite append_assoc.
Qed.

(** The descriptors of this subsystem are usable together or not at
    all: what decides is the namespace. *)
Lemma stat_desc_usable (short hlp : string) :
  short <> "" -> model.legacyRunes false short = true ->
  usable (prometheus.NewDesc NameValidationScheme
            (prometheus.BuildFQName namespace statDatabaseSubsystem short)
            hlp ["datid"; "datname"] [])
  = namespaceUsable.
Proof.
  intros Hne Hs. rewrite NewDesc_usable, (BuildFQName_stat_database short Hne).
  unfold namePrefix, namespaceUsable.
  destruct (prometheus.nonEmpty namespace) eqn:E.
  - rewrite append_assoc. apply name_usable.
    + intros ->. discriminate E.
    + discriminate.
    + exact Hs.
  - assert (Ha : asciiOnly ("stat_database_" ++ short) = true)
      by (apply (legacy_ascii true); exact Hs).
    unfold utf8.ValidString. rewrite (exec_ascii _ Ha).
    destruct NameValidationScheme; cbn [model.IsValidMetricName].
    + change (model.legacyRunes true ("stat_database_" ++ short))
        with (model.legacyRunes false short).
      now rewrite Hs.
    + unfold utf8.ValidString. now rewrite (exec_ascii _ Ha).
Qed.

(** What [MustNewConstMetric] gives for a descriptor of this subsystem
    and two label values. *)
Lemma MustNewConstMetric_stat (short hlp : string)
    (vt : prometheus.ValueType) (v : float) (a b : string) :
  short <> "" -> model.legacyRunes false short = true ->
  prometheus.MustNewConstMetric
    (prometheus.NewDesc NameValidationScheme
       (prometheus.BuildFQName namespace statDatabaseSubsystem short)
       hlp ["datid"; "datname"] [])
    vt v [a; b]
  = if namespaceUsable && (utf8.ValidString a && utf8.ValidString b)
    then Some (prometheus.mkMetric
                 (prometheus.NewDesc NameValidationScheme
                    (prometheus.BuildFQName namespace statDatabaseSubsystem
                       short)
                    hlp ["datid"; "datname"] [])
                 vt v [a; b])
    else None.
Proof.
  intros Hne Hs. pose proof (stat_desc_usable short hlp Hne Hs) as H.
  unfold prometheus.MustNewConstMetric. unfold usable in H.
  destruct (prometheus.err _); rewrite <- H; cbn [andb]; [reflexivity|].
  unfold prometheus.validateLabelValues.
  cbn [prometheus.variableLabels prometheus.NewDesc List.length Nat.eqb
       forallb andb].
  now rewrite andb_true_r.
Qed.

(* ------------------------------------------------------------------ *)
(** ** Framing: statements only append to the world *)

Lemma extend_empty_l (d : World) : extend emptyWorld d = d.
Proof. destruct d; reflexivity. Qed.

Lemma extend_empty_r (w : World) : extend w emptyWorld = w.
Proof. destruct w; unfold extend; simpl; now rewrite !app_nil_r. Qed.

Lemma extend_assoc (w d e : World) :
  extend (extend w d) e = extend w (extend d e).
Proof. unfold extend; simpl; now rewrite !app_assoc. Qed.

Lemma framed_ret {A : Type} (a : A) : framed (ret a).
Proof. intro w; unfold ret; simpl; now rewrite extend_empty_r. Qed.

Lemma framed_Debug (msg : string) : framed (Debug msg).
Proof. intro w; unfold Debug, extend; simpl; now rewrite app_nil_r. Qed.

Lemma framed_continue : framed continue.
Proof. intro w; unfold continue; simpl; now rewrite extend_empty_r. Qed.

Lemma framed_returnErr (err : error) : framed (returnErr err).
Proof. intro w; unfold returnErr; simpl; now rewrite extend_empty_r. Qed.

Lemma framed_send (m : option prometheus.Metric) : framed (send m).
Proof.
  intro w; destruct m as [m|]; simpl.
  - unfold extend; simpl; now rewrite app_nil_r.
  - now rewrite extend_empty_r.
Qed.

Lemma framed_bind {A B : Type} (s : Stmt A) (k : A -> Stmt B) :
  framed s -> (forall a, framed (k a)) -> framed (bind s k).
Proof.
  intros Hs Hk w. unfold bind. rewrite (Hs w).
  destruct (s emptyWorld) as [f d]; destruct f as [a| |err|]; simpl;
    try reflexivity.
  rewrite (Hk a (extend w d)), (Hk a d). simpl.
  now rewrite extend_assoc.
Qed.

Lemma framed_if {A : Type} (b : bool) (s1 s2 : Stmt A) :
  framed s1 -> framed s2 -> framed (if b then s1 else s2).
Proof. now destruct b. Qed.

Lemma framed_skipUnless (valid : bool) (msg : string) :
  framed (skipUnless valid msg).
Proof.
  unfold skipUnless. apply framed_if; [|apply framed_ret].
  apply framed_bind; [apply framed_Debug | intros _; apply framed_continue].
Qed.

Ltac framed_step :=
  lazymatch goal with
  | |- framed (bind _ _) => apply framed_bind; [|intros _]
  | |- framed (skipUnless _ _) => apply framed_skipUnless
  | |- framed (if _ then _ else _) => apply framed_if
  | |- framed (send _) => apply framed_send
  | |- framed (Debug _) => apply framed_Debug
  | |- framed continue => apply framed_continue
  | |- framed (ret _) => apply framed_ret
  | |- framed (returnErr _) => apply framed_returnErr
  end.

Lemma framed_loopBody (avail : bool) (scan : ScanOutcome) :
  framed (loopBody avail scan).
Proof.
  destruct scan as [err|r]; unfold loopBody; [apply framed_returnErr|].
  cbv zeta. repeat framed_step.
Qed.

(* ------------------------------------------------------------------ *)
(** ** The loop body on one scanned row *)

Ltac peel H :=
  repeat match type of H with
         | context [andb ?b _] =>
             is_var b; destruct b; cbn [andb negb orb] in H;
             try discriminate H
         end.

Ltac open_row r :=
  destruct r as [[? ?] [? ?] [? ?] [? ?] [? ?] [? ?] [? ?] [? ?] [? ?] [? ?]
                 [? ?] [? ?] [? ?] [? ?] [? ?] [? ?] [? ?] [? ?] [? ?] [? ?]];
  unfold reachesEmission, sendable, identityPresent, numericPresent in *;
  cbn [datid datname numBackends xactCommit xactRollback blksRead blksHit
       tupReturned tupFetched tupInserted tupUpdated tupDeleted conflicts
       tempFiles tempBytes deadlocks blkReadTime blkWriteTime statsReset
       activeTime sql.NullString.Valid sql.NullFloat64.Valid
       sql.NullTime.Valid sql.NullString.String] in *.

(** The sends of the loop body, with what [MustNewConstMetric] gives. *)
Ltac unfold_sends :=
  unfold loopBody; cbv zeta;
  cbn [datid datname numBackends xactCommit xactRollback blksRead blksHit
       tupReturned tupFetched tupInserted tupUpdated tupDeleted conflicts
       tempFiles tempBytes deadlocks blkReadTime blkWriteTime statsReset
       activeTime sql.NullString.String];
  unfold statDatabaseNumbackends,
    statDatabaseXactCommit,
    statDatabaseXactRollback,
    statDatabaseBlksRead,
    statDatabaseBlksHit,
    statDatabaseTupReturned,
    statDatabaseTupFetched,
    statDatabaseTupInserted,
    statDatabaseTupUpdated,
    statDatabaseTupDeleted,
    statDatabaseConflicts,
    statDatabaseTempFiles,
    statDatabaseTempBytes,
    statDatabaseDeadlocks,
    statDatabaseBlkReadTime,
    statDatabaseBlkWriteTime,
    statDatabaseStatsReset,
    statDatabaseActiveTime;
  rewrite !MustNewConstMetric_stat by (discriminate || reflexivity).

(** A row with its identity and every requested numeric column falls
    through all the guards; when its metrics can be built it sends the
    complete set, in catalog order. *)
Lemma loopBody_present (avail : bool) (r : Row) :
  identityPresent r && numericPresent avail r = true ->
  namespaceUsable = true -> sendable r = true ->
  loopBody avail (ScanOk r) emptyWorld
  = (Normal tt, mkWorld (completeSet (columnsWhen avail) r) (resetNote r)).
Proof.
  intros H Hns Hs. open_row r. destruct avail; peel H; try subst;
    repeat match goal with b : bool |- _ => destruct b end;
    unfold_sends; rewrite Hns, Hs; reflexivity.
Qed.

(** When they cannot, the first send panics: nothing is sent. *)
Lemma loopBody_panics (avail : bool) (r : Row) :
  identityPresent r && numericPresent avail r = true ->
  namespaceUsable && sendable r = false ->
  loopBody avail (ScanOk r) emptyWorld = (Panic, mkWorld [] (resetNote r)).
Proof.
  intros H Hp. open_row r. destruct avail; peel H; try subst;
    repeat match goal with b : bool |- _ => destruct b end;
    unfold_sends; rewrite Hp; reflexivity.
Qed.

(** A row that lacks its identity or a requested numeric column stops at
    the first failing guard: one debug message, nothing sent, and the loop
    goes on to the next row. *)
Lemma loopBody_absent (avail : bool) (r : Row) :
  identityPresent r && numericPresent avail r = false ->
  exists msg,
    loopBody avail (ScanOk r) emptyWorld = (Continue, mkWorld [] [msg]).
Proof.
  intro H. open_row r.
  repeat match type of H with
         | context [andb ?b _] =>
             is_var b; destruct b; cbn [andb] in H;
             [|clear H; eexists; reflexivity]
         end.
  destruct avail; cbn [negb orb] in H; [|discriminate H].
  subst. eexists; reflexivity.
Qed.

Lemma loopBody_frame (avail : bool) (r : Row) (w : World) :
  loopBody avail (ScanOk r) w
  = (fst (loopBody avail (ScanOk r) emptyWorld),
     extend w (mkWorld (observations avail r) (diagnostics avail r))).
Proof.
  rewrite (framed_loopBody avail (ScanOk r) w).
  unfold observations, diagnostics.
  now destruct (snd (loopBody avail (ScanOk r) emptyWorld)).
Qed.

Lemma observations_present (avail : bool) (r : Row) :
  identityPresent r && numericPresent avail r = true ->
  namespaceUsable = true -> sendable r = true ->
  observations avail r = completeSet (columnsWhen avail) r.
Proof.
  intros H Hns Hs. unfold observations.
  now rewrite (loopBody_present avail r H Hns Hs).
Qed.

Lemma observations_absent (avail : bool) (r : Row) :
  identityPresent r && numericPresent avail r = false ->
  observations avail r = [].
Proof.
  intro H. unfold observations.
  destruct (loopBody_absent avail r H) as [msg E]. now rewrite E.
Qed.

Lemma observations_panics (avail : bool) (r : Row) :
  identityPresent r && numericPresent avail r = true ->
  namespaceUsable && sendable r = false ->
  observations avail r = [].
Proof.
  intros H Hp. unfold observations.
  now rewrite (loopBody_panics avail r H Hp).
Qed.

(** The observations of a row: the complete set when it passes the
    guards and its metrics can be built, none otherwise. *)
Lemma observations_reaches (avail : bool) (r : Row) :
  observations avail r
  = if reachesEmission avail r && (namespaceUsable && sendable r)
    then completeSet (columnsWhen avail) r
    else [].
Proof.
  unfold reachesEmission.
  destruct (identityPresent r && numericPresent avail r) eqn:H;
    cbn [andb]; [|exact (observations_absent avail r H)].
  destruct (namespaceUsable && sendable r) eqn:Hp.
  - apply andb_true_iff in Hp as [Hns Hs].
    exact (observations_present avail r H Hns Hs).
  - exact (observations_panics avail r H Hp).
Qed.

(** On a clean row the body neither returns nor panics; on any other
    scanned row it panics. *)
Lemma loopBody_flow (avail : bool) (r : Row) :
  clean avail r = true ->
  fst (loopBody avail (ScanOk r) emptyWorld) = Normal tt
  \/ fst (loopBody avail (ScanOk r) emptyWorld) = Continue.
Proof.
  unfold clean, reachesEmission.
  destruct (identityPresent r && numericPresent avail r) eqn:H;
    cbn [negb orb]; intro Hc.
  - left. apply andb_true_iff in Hc as [Hns Hs].
    now rewrite (loopBody_present avail r H Hns Hs).
  - right. destruct (loopBody_absent avail r H) as [msg E]. now rewrite E.
Qed.

Lemma loopBody_unclean (avail : bool) (r : Row) :
  clean avail r = false ->
  fst (loopBody avail (ScanOk r) emptyWorld) = Panic
  /\ observations avail r = [].
Proof.
  unfold clean, reachesEmission.
  destruct (identityPresent r && numericPresent avail r) eqn:H;
    cbn [negb orb]; intro Hc; [|discriminate Hc].
  split; [now rewrite (loopBody_panics avail r H Hc)|].
  exact (observations_panics avail r H Hc).
Qed.

(** A skipped row leaves one debug message and nothing else, whatever the
    world it is met in. *)
Lemma loopBody_skip (avail : bool) (r : Row) :
  identityPresent r && numericPresent avail r = false ->
  exists msg, forall w,
    loopBody avail (ScanOk r) w
    = (Continue, mkWorld (ch w) (debugLog w ++ [msg])).
Proof.
  intro H. destruct (loopBody_absent avail r H) as [msg E].
  exists msg. intro w. rewrite (framed_loopBody avail (ScanOk r) w), E.
  unfold extend; simpl. now rewrite app_nil_r.
Qed.

(* ------------------------------------------------------------------ *)
(** ** The loop over the result stream *)

Lemma framed_forRows (body : ScanOutcome -> Stmt unit)
    (rows : list ScanOutcome) :
  (forall scan, framed (body scan)) -> framed (forRows body rows).
Proof.
  intro Hb. induction rows as [|scan rest IH]; [apply framed_ret|].
  intro w. simpl. rewrite (Hb scan w).
  destruct (body scan emptyWorld) as [f d]; destruct f as [[]| |err|]; simpl;
    try reflexivity;
    rewrite (IH (extend w d)), (IH d); simpl; now rewrite extend_assoc.
Qed.

Lemma forRows_app (body : ScanOutcome -> Stmt unit)
    (xs ys : list ScanOutcome) (w : World) :
  forRows body (xs ++ ys) w
  = match forRows body xs w with
    | (Normal _, w') => forRows body ys w'
    | (Continue, w') => forRows body ys w'
    | (Return err, w') => (Return err, w')
    | (Panic, w') => (Panic, w')
    end.
Proof.
  revert w. induction xs as [|x xs IH]; intro w; [reflexivity|].
  simpl. destruct (body x w) as [f w']; destruct f; auto.
Qed.

(** The loop on a first row that scans. *)
Lemma forRows_cons_row (avail : bool) (r : Row) (rest : list ScanOutcome) :
  forRows (loopBody avail) (ScanOk r :: rest) emptyWorld
  = if clean avail r
    then (fst (forRows (loopBody avail) rest emptyWorld),
          extend (mkWorld (observations avail r) (diagnostics avail r))
                 (snd (forRows (loopBody avail) rest emptyWorld)))
    else (Panic, mkWorld [] (diagnostics avail r)).
Proof.
  cbn [forRows]. rewrite (loopBody_frame avail r emptyWorld), extend_empty_l.
  destruct (clean avail r) eqn:Hc.
  - pose proof (framed_forRows (loopBody avail) rest (framed_loopBody avail)
                  (mkWorld (observations avail r) (diagnostics avail r)))
      as Hrest.
    destruct (loopBody_flow avail r Hc) as [E|E]; rewrite E; exact Hrest.
  - destruct (loopBody_unclean avail r Hc) as [E Ho]. now rewrite E, Ho.
Qed.

Lemma forRows_scanned_then (avail : bool) (rs : list Row)
    (rest : list ScanOutcome) :
  Forall (fun r => clean avail r = true) rs ->
  forRows (loopBody avail) (scanned rs ++ rest) emptyWorld
  = (fst (forRows (loopBody avail) rest emptyWorld),
     extend (mkWorld (flat_map (observations avail) rs)
                     (flat_map (diagnostics avail) rs))
            (snd (forRows (loopBody avail) rest emptyWorld))).
Proof.
  induction 1 as [|r rs Hr Hrs IH].
  - cbn [scanned map app flat_map]. rewrite extend_empty_l.
    now destruct (forRows (loopBody avail) rest emptyWorld).
  - change (scanned (r :: rs) ++ rest) with (ScanOk r :: scanned rs ++ rest).
    rewrite forRows_cons_row, Hr, IH. cbn [fst snd flat_map].
    now rewrite <- extend_assoc.
Qed.

Lemma forRows_scanned (avail : bool) (rs : list Row) :
  Forall (fun r => clean avail r = true) rs ->
  forRows (loopBody avail) (scanned rs) emptyWorld
  = (Normal tt,
     mkWorld (flat_map (observations avail) rs)
             (flat_map (diagnostics avail) rs)).
Proof.
  intro H. rewrite <- (app_nil_r (scanned rs)).
  rewrite (forRows_scanned_then avail rs [] H). cbn [forRows ret fst snd].
  now rewrite extend_empty_r.
Qed.

Lemma Update_rows (i : instance) (rows : list ScanOutcome) (w : World) :
  served i = QueryRows rows ->
  Update i w
  = (resultOf (fst (forRows (loopBody (activeTimeAvail (version i))) rows
                      emptyWorld)),
     extend w (snd (forRows (loopBody (activeTimeAvail (version i))) rows
                      emptyWorld))).
Proof.
  unfold served, Update. intros ->.
  rewrite (framed_forRows _ rows (framed_loopBody _) w).
  now destruct (forRows _ rows emptyWorld) as [[[]| |err|] d].
Qed.

(** When every Scan succeeds and no row panics, [Update] returns nil,
    having sent the observations of the rows one row after the other. *)
Lemma Update_scanned (i : instance) (rs : list Row) (w : World) :
  served i = QueryRows (scanned rs) ->
  Forall (fun r => clean (activeTimeAvail (version i)) r = true) rs ->
  Update i w
  = (Returned None,
     extend w
       (mkWorld (flat_map (observations (activeTimeAvail (version i))) rs)
                (flat_map (diagnostics (activeTimeAvail (version i))) rs))).
Proof.
  intros Hs Hc. now rewrite (Update_rows i _ w Hs), (forRows_scanned _ rs Hc).
Qed.

(** A row that stops at a guard can be dropped from the stream: the
    result of [Update] and the channel do not change. *)
Lemma forRows_drop (avail : bool) (r : Row) (pre post : list ScanOutcome) :
  identityPresent r && numericPresent avail r = false ->
  fst (forRows (loopBody avail) (pre ++ ScanOk r :: post) emptyWorld)
  = fst (forRows (loopBody avail) (pre ++ post) emptyWorld)
  /\ ch (snd (forRows (loopBody avail) (pre ++ ScanOk r :: post) emptyWorld))
     = ch (snd (forRows (loopBody avail) (pre ++ post) emptyWorld)).
Proof.
  intro Habs. rewrite !forRows_app.
  destruct (forRows (loopBody avail) pre emptyWorld) as [f w'].
  assert (Hcons :
    fst (forRows (loopBody avail) (ScanOk r :: post) w')
    = fst (forRows (loopBody avail) post w')
    /\ ch (snd (forRows (loopBody avail) (ScanOk r :: post) w'))
       = ch (snd (forRows (loopBody avail) post w'))).
  { destruct (loopBody_skip avail r Habs) as [msg E].
    cbn [forRows]. rewrite (E w').
    rewrite (framed_forRows _ post (framed_loopBody avail)
               (mkWorld (ch w') (debugLog w' ++ [msg]))).
    rewrite (framed_forRows _ post (framed_loopBody avail) w').
    split; reflexivity. }
  destruct f as [[]| |err|]; auto.
Qed.

Lemma Update_drop (i i' : instance) (r : Row) (pre post : list ScanOutcome)
    (w : World) :
  identityPresent r
  && numericPresent (activeTimeAvail (version i)) r = false ->
  version i' = version i ->
  served i = QueryRows (pre ++ ScanOk r :: post) ->
  served i' = QueryRows (pre ++ post) ->
  fst (Update i w) = fst (Update i' w)
  /\ ch (snd (Update i w)) = ch (snd (Update i' w)).
Proof.
  intros Habs Hv Hs Hs'.
  rewrite (Update_rows i _ w Hs), (Update_rows i' _ w Hs'), Hv.
  destruct (forRows_drop _ r pre post Habs) as [Hf Hc].
  unfold extend; simpl. now rewrite Hf, Hc.
Qed.

Lemma Update_channel (i : instance) (rows : list ScanOutcome) (w : World) :
  served i = QueryRows rows ->
  ch (snd (Update i w))
  = ch w ++ ch (snd (forRows (loopBody (activeTimeAvail (version i))) rows
                       emptyWorld)).
Proof. intro Hs. now rewrite (Update_rows i rows w Hs). Qed.

(** A stream is clean rows that scan, possibly followed by a failing
    Scan or by a row on which the body panics, and whatever comes after. *)
Lemma stream_shape (avail : bool) (rows : list ScanOutcome) :
  (exists rs, rows = scanned rs /\ Forall (fun r => clean avail r = true) rs)
  \/ (exists rs err post,
        rows = scanned rs ++ ScanFail err :: post
        /\ Forall (fun r => clean avail r = true) rs)
  \/ (exists rs r post,
        rows = scanned rs ++ ScanOk r :: post
        /\ Forall (fun r => clean avail r = true) rs
        /\ clean avail r = false).
Proof.
  induction rows as [|scan rest IH].
  - left. exists []. now split.
  - destruct scan as [err|r].
    + right. left. exists [], err, rest. now split.
    + destruct (clean avail r) eqn:Hc.
      * destruct IH as [[rs [-> H]]|[[rs [err [post [-> H]]]]
                                    |[rs [r' [post [-> [H H']]]]]]].
        -- left. exists (r :: rs). split; [reflexivity|now constructor].
        -- right. left. exists (r :: rs), err, post.
           split; [reflexivity|now constructor].
        -- right. right. exists (r :: rs), r', post.
           split; [reflexivity|]. split; [now constructor|exact H'].
      * right. right. exists [], r, rest. now split.
Qed.

(** How [Update] ends on each shape of stream. *)
Lemma Update_failure (i : instance) (rs : list Row) (err : error)
    (post : list ScanOutcome) (w : World) :
  served i = QueryRows (scanned rs ++ ScanFail err :: post) ->
  Forall (fun r => clean (activeTimeAvail (version i)) r = true) rs ->
  fst (Update i w) = Returned (Some err)
  /\ ch (snd (Update i w))
     = ch w ++ flat_map (observations (activeTimeAvail (version i))) rs.
Proof.
  intros Hs Hc.
  rewrite (Update_rows i _ w Hs), (forRows_scanned_then _ rs _ Hc).
  cbn [forRows loopBody returnErr fst snd extend ch resultOf].
  now rewrite app_nil_r.
Qed.

Lemma Update_panic (i : instance) (rs : list Row) (r : Row)
    (post : list ScanOutcome) (w : World) :
  served i = QueryRows (scanned rs ++ ScanOk r :: post) ->
  Forall (fun r => clean (activeTimeAvail (version i)) r = true) rs ->
  clean (activeTimeAvail (version i)) r = false ->
  fst (Update i w) = Panicked
  /\ ch (snd (Update i w))
     = ch w ++ flat_map (observations (activeTimeAvail (version i))) rs.
Proof.
  intros Hs Hc Hr.
  rewrite (Update_rows i _ w Hs), (forRows_scanned_then _ rs _ Hc),
    forRows_cons_row, Hr.
  cbn [fst snd extend ch resultOf]. now rewrite app_nil_r.
Qed.

(** A clean row that follows clean rows has its observations on the
    channel and its diagnostics in the log, whatever comes after it. *)
Lemma Update_reaches_row (i : instance) (pre : list Row) (r : Row)
    (post : list ScanOutcome) (w : World) :
  served i = QueryRows (scanned pre ++ ScanOk r :: post) ->
  Forall (fun r => clean (activeTimeAvail (version i)) r = true) pre ->
  clean (activeTimeAvail (version i)) r = true ->
  (forall m, In m (observations (activeTimeAvail (version i)) r) ->
             In m (ch (snd (Update i w))))
  /\ (forall msg, In msg (diagnostics (activeTimeAvail (version i)) r) ->
                  In msg (debugLog (snd (Update i w)))).
Proof.
  intros Hs Hc Hr.
  rewrite (Update_rows i _ w Hs), (forRows_scanned_then _ pre _ Hc),
    forRows_cons_row, Hr.
  cbn [fst snd extend ch debugLog].
  split; intros x Hx; apply in_or_app; right; apply in_or_app; right;
    apply in_or_app; left; exact Hx.
Qed.

(* ------------------------------------------------------------------ *)
(** ** Rows that are skipped, and errors *)

Lemma skipped_is_clean (avail : bool) (r : Row) :
  identityPresent r && numericPresent avail r = false -> clean avail r = true.
Proof. unfold clean, reachesEmission. now intros ->. Qed.

Lemma Update_without_panic (i : instance) (r : Row) (rs1 rs2 : list Row)
    (w : World) :
  served i = QueryRows (scanned rs1 ++ ScanOk r :: scanned rs2) ->
  clean (activeTimeAvail (version i)) r = true ->
  Forall (fun r' => clean (activeTimeAvail (version i)) r' = true)
         (rs1 ++ rs2) ->
  fst (Update i w) = Returned None.
Proof.
  intros Hs Hr Hc.
  change (scanned rs1 ++ ScanOk r :: scanned rs2)
    with (scanned rs1 ++ scanned (r :: rs2)) in Hs.
  unfold scanned in Hs. rewrite <- map_app in Hs.
  rewrite (Update_scanned i _ w Hs); [reflexivity|].
  apply Forall_app in Hc as [H1 H2]. apply Forall_app. split; [exact H1|].
  now constructor.
Qed.


(** C4: when the query fails, [Update] returns that error and the world
    is untouched (nothing is sent); when a Scan fails after the rows [rs]
    were scanned without a panic, [Update] returns that error and the
    channel holds the observations of [rs] only: none for the failing row
    or for the rows after it. *)
Theorem query_and_scan_errors_abort :
  (forall (i : instance) (err : error) (w : World),
      served i = QueryErr err ->
      Update i w = (Returned (Some err), w))
  /\ (forall (i : instance) (rs : list Row) (err : error)
            (post : list ScanOutcome) (w : World),
        served i = QueryRows (scanned rs ++ ScanFail err :: post) ->
        Forall (fun r => clean (activeTimeAvail (version i)) r = true) rs ->
        fst (Update i w) = Returned (Some err)
        /\ ch (snd (Update i w))
           = ch w ++ flat_map (observations (activeTimeAvail (version i))) rs).
Proof.
  split.
  - intros i err w Hs. unfold served in Hs. unfold Update. now rewrite Hs.
  - intros i rs err post w Hs Hc. exact (Update_failure i rs err post w Hs Hc).
Qed.

(** C1, as the code has it: a row with its identity that lacks the value
    of a requested numeric column other than the reset timestamp sends no
    observation at all (not one fewer than the complete set, which has 17
    or 18); the body logs one debug message and continues, no error is
    returned, and [Update] gives the same result and channel as on the
    stream without that row; when all the rows of the stream scan and the
    metrics of the other rows can be built, that result is nil. *)
Theorem missing_optional_column_skips_row
    (i i' : instance) (r : Row) (pre post : list ScanOutcome) (w : World) :
  identityPresent r = true ->
  numericPresent (activeTimeAvail (version i)) r = false ->
  version i' = version i ->
  served i = QueryRows (pre ++ ScanOk r :: post) ->
  served i' = QueryRows (pre ++ post) ->
  observations (activeTimeAvail (version i)) r = []
  /\ List.length (completeSet (columns (version i)) r)
     = (if activeTimeAvail (version i) then 18 else 17)
  /\ (exists msg, forall w0,
        loopBody (activeTimeAvail (version i)) (ScanOk r) w0
        = (Continue, mkWorld (ch w0) (debugLog w0 ++ [msg])))
  /\ fst (Update i w) = fst (Update i' w)
  /\ ch (snd (Update i w)) = ch (snd (Update i' w))
  /\ (forall rs1 rs2 : list Row,
        pre = scanned rs1 -> post = scanned rs2 ->
        Forall (fun r' => clean (activeTimeAvail (version i)) r' = true)
               (rs1 ++ rs2) ->
        fst (Update i w) = Returned None).
Proof.
  intros Hid Hnum Hv Hs Hs'.
  assert (Habs : identityPresent r
                 && numericPresent (activeTimeAvail (version i)) r = false)
    by (rewrite Hid, Hnum; reflexivity).
  split; [exact (observations_absent _ r Habs)|].
  split; [unfold columns; now destruct (activeTimeAvail (version i))|].
  split; [exact (loopBody_skip _ r Habs)|].
  destruct (Update_drop i i' r pre post w Habs Hv Hs Hs') as [Hf Hc].
  split; [exact Hf|]. split; [exact Hc|].
  intros rs1 rs2 -> -> Hclean.
  exact (Update_without_panic i r rs1 rs2 w Hs (skipped_is_clean _ r Habs)
           Hclean).
Qed.

(** C9: for every scanned row, the observations are none or the complete
    active set of the version (17 entries, 18 with active_time); and a row
    lacking any requested numeric column other than the reset timestamp
    sends none. *)
Theorem row_emission_all_or_nothing (v : semver.Version) (r : Row) :
  (observations (activeTimeAvail v) r = []
   \/ observations (activeTimeAvail v) r = completeSet (columns v) r)
  /\ List.length (completeSet (columns v) r)
     = (if activeTimeAvail v then 18 else 17)
  /\ (numericPresent (activeTimeAvail v) r = false ->
      observations (activeTimeAvail v) r = []).
Proof.
  split; [|split].
  - rewrite observations_reaches.
    destruct (reachesEmission (activeTimeAvail v) r
              && (namespaceUsable && sendable r));
      [right; reflexivity|left; reflexivity].
  - unfold columns. now destruct (activeTimeAvail v).
  - intro H. apply observations_absent. rewrite H. apply andb_false_r.
Qed.

(* ------------------------------------------------------------------ *)
(** ** What an emitted row consists of *)

Lemma activeCatalog_when (avail : bool) :
  activeCatalog (columnsWhen avail)
  = if avail then catalog else removelast catalog.
Proof. destruct avail; reflexivity. Qed.

Lemma observations_cases (avail : bool) (r : Row) :
  observations avail r = []
  \/ (identityPresent r && numericPresent avail r = true
      /\ namespaceUsable = true /\ sendable r = true
      /\ observations avail r
         = map (observe r) (if avail then catalog else removelast catalog)).
Proof.
  rewrite observations_reaches. unfold reachesEmission.
  destruct (identityPresent r && numericPresent avail r); cbn [andb];
    [|now left].
  destruct namespaceUsable; cbn [andb]; [|now left].
  destruct (sendable r); [|now left].
  right. repeat split. unfold completeSet. now rewrite activeCatalog_when.
Qed.

(** Two descriptors with different help texts are different. *)
Ltac by_help E :=
  apply (f_equal prometheus.help) in E; lazy in E; discriminate E.

Ltac each_entry H :=
  cbv [catalog removelast In] in H;
  repeat (destruct H as [H|H]; [subst|]); try contradiction.

Lemma active_time_entry (e : Entry) :
  In e catalog ->
  descriptor e = statDatabaseActiveTime ->
  column e = "active_time"
  /\ kind e = prometheus.CounterValue
  /\ forall r, reading e r = (sql.NullFloat64.Float64 (activeTime r) / 1000)%float.
Proof.
  intros Hin Hd. each_entry Hin; cbn [descriptor] in Hd;
    try (by_help Hd); repeat split.
Qed.

Lemma removelast_catalog_no_active_time (e : Entry) :
  In e (removelast catalog) -> descriptor e <> statDatabaseActiveTime.
Proof.
  intros Hin Hd. each_entry Hin; cbn [descriptor] in Hd; by_help Hd.
Qed.

Lemma active_time_observed (r : Row) :
  identityPresent r && numericPresent true r = true ->
  namespaceUsable = true -> sendable r = true ->
  In (prometheus.mkMetric statDatabaseActiveTime prometheus.CounterValue
        (sql.NullFloat64.Float64 (activeTime r) / 1000)%float (labelsOf r))
     (observations true r).
Proof.
  intros H Hns Hs. rewrite (observations_present true r H Hns Hs).
  unfold completeSet. rewrite activeCatalog_when.
  apply (in_map (observe r) catalog
           (mkEntry "active_time" statDatabaseActiveTime
              prometheus.CounterValue
              (fun r => (sql.NullFloat64.Float64 (activeTime r) / 1000)%float))).
  cbv [catalog In]. do 17 right. left. reflexivity.
Qed.

Lemma stats_reset_observed (avail : bool) (r : Row) :
  identityPresent r && numericPresent avail r = true ->
  namespaceUsable = true -> sendable r = true ->
  In (prometheus.mkMetric statDatabaseStatsReset prometheus.CounterValue
        (if sql.NullTime.Valid (statsReset r)
         then float64_of_int64 (sql.Unix (sql.NullTime.Time (statsReset r)))
         else 0%float)
        (labelsOf r))
     (observations avail r).
Proof.
  intros H Hns Hs. rewrite (observations_present avail r H Hns Hs).
  unfold completeSet. rewrite activeCatalog_when.
  apply (in_map (observe r) _
           (mkEntry "stats_reset" statDatabaseStatsReset
              prometheus.CounterValue
              (fun r => if sql.NullTime.Valid (statsReset r)
                        then float64_of_int64
                               (sql.Unix (sql.NullTime.Time (statsReset r)))
                        else 0%float))).
  destruct avail; cbv [catalog removelast In]; do 16 right; left; reflexivity.
Qed.

Lemma emitting_is_clean (avail : bool) (r : Row) :
  namespaceUsable = true -> sendable r = true -> clean avail r = true.
Proof. unfold clean. intros -> ->. apply orb_true_r. Qed.

(** [Update] on a stream of one scanned row on which it does not panic. *)
Lemma Update_single (i : instance) (r : Row) :
  served i = QueryRows [ScanOk r] ->
  clean (activeTimeAvail (version i)) r = true ->
  Update i emptyWorld
  = (Returned None,
     mkWorld (observations (activeTimeAvail (version i)) r)
             (diagnostics (activeTimeAvail (version i)) r)).
Proof.
  intros Hs Hc. change [ScanOk r] with (scanned [r]) in Hs.
  rewrite (Update_scanned i [r] emptyWorld Hs (Forall_cons r Hc (Forall_nil _))).
  cbn [flat_map]. rewrite extend_empty_l. now rewrite !app_nil_r.
Qed.

Lemma allPresent_split (avail : bool) (r : Row) :
  allPresent avail r = true ->
  identityPresent r && numericPresent avail r = true
  /\ sql.NullTime.Valid (statsReset r) = true.
Proof. unfold allPresent. intro H. now apply andb_true_iff in H. Qed.

(** The observations the loop sends come from rows of the stream. *)
Lemma forRows_observation_origin (avail : bool) (rows : list ScanOutcome)
    (m : prometheus.Metric) :
  In m (ch (snd (forRows (loopBody avail) rows emptyWorld))) ->
  exists r, In (ScanOk r) rows /\ In m (observations avail r).
Proof.
  induction rows as [|scan rest IH]; [contradiction|].
  destruct scan as [err|r]; [contradiction|].
  rewrite forRows_cons_row. destruct (clean avail r); [|contradiction].
  cbn [snd extend ch]. intro H. apply in_app_or in H as [H|H].
  - exists r. split; [now left|exact H].
  - destruct (IH H) as [r' [Hr' Hm]]. exists r'. split; [now right|exact Hm].
Qed.

Lemma observation_of_row (avail : bool) (r : Row) (m : prometheus.Metric) :
  In m (observations avail r) ->
  reachesEmission avail r = true
  /\ exists e, In e (activeCatalog (columnsWhen avail)) /\ m = observe r e.
Proof.
  rewrite observations_reaches.
  destruct (reachesEmission avail r); cbn [andb]; [|contradiction].
  destruct (namespaceUsable && sendable r); [|contradiction].
  unfold completeSet. intro H. apply in_map_iff in H as [e [E He]].
  split; [reflexivity|]. exists e. split; [exact He|]. now symmetry.
Qed.

(** C2: a row with every requested column, whose metrics can be built
    (usable descriptors, label values in valid UTF-8), sends as many
    observations as there are catalog entries for the requested columns.
    On version 13.0.0 a stream of one such row makes [Update] succeed
    with 17 observations, none of them for active_time; on version
    14.2.0, with an active_time of 4200, with 18 observations, the
    active_time one having value 4.2. *)
Theorem full_row_emission :
  (forall (v : semver.Version) (r : Row),
      allPresent (activeTimeAvail v) r = true ->
      namespaceUsable = true -> sendable r = true ->
      List.length (observations (activeTimeAvail v) r)
      = List.length (activeCatalog (columns v)))
  /\ (forall (i : instance) (r : Row),
        version i = semver.plain 13 0 0 ->
        served i = QueryRows [ScanOk r] ->
        allPresent false r = true ->
        namespaceUsable = true -> sendable r = true ->
        ~ In "active_time" (columns (version i))
        /\ fst (Update i emptyWorld) = Returned None
        /\ List.length (ch (snd (Update i emptyWorld))) = 17
        /\ Forall (fun m => prometheus.desc m <> statDatabaseActiveTime)
                  (ch (snd (Update i emptyWorld))))
  /\ (forall (i : instance) (r : Row),
        version i = semver.plain 14 2 0 ->
        served i = QueryRows [ScanOk r] ->
        allPresent true r = true ->
        namespaceUsable = true -> sendable r = true ->
        sql.NullFloat64.Float64 (activeTime r) = 4200%float ->
        fst (Update i emptyWorld) = Returned None
        /\ List.length (ch (snd (Update i emptyWorld))) = 18
        /\ In (prometheus.mkMetric statDatabaseActiveTime
                 prometheus.CounterValue 4.2%float (labelsOf r))
              (ch (snd (Update i emptyWorld)))).
Proof.
  split; [|split].
  - intros v r H Hns Hl. apply allPresent_split in H as [H _].
    rewrite (observations_present _ r H Hns Hl). unfold completeSet.
    now rewrite length_map.
  - intros i r Hv Hs H Hns Hl. apply allPresent_split in H as [H _].
    rewrite (Update_single i r Hs (emitting_is_clean _ r Hns Hl)), Hv.
    cbn [fst snd ch].
    change (activeTimeAvail (semver.plain 13 0 0)) with false.
    rewrite (observations_present false r H Hns Hl). unfold completeSet.
    rewrite activeCatalog_when.
    split; [|split; [reflexivity|split; [reflexivity|]]].
    + cbv [columns activeTimeAvail semver.GTE semver.Compare semver.plain
           semver.Major semver.Minor semver.Patch N.eqb Pos.eqb negb N.ltb
           N.compare Pos.compare Pos.compare_cont Z.geb Z.compare
           baseColumns In].
      intuition discriminate.
    + apply Forall_map, Forall_forall. intros e He.
      exact (removelast_catalog_no_active_time e He).
  - intros i r Hv Hs H Hns Hl Hms. apply allPresent_split in H as [H _].
    rewrite (Update_single i r Hs (emitting_is_clean _ r Hns Hl)), Hv.
    cbn [fst snd ch].
    change (activeTimeAvail (semver.plain 14 2 0)) with true.
    split; [reflexivity|split].
    + rewrite (observations_present true r H Hns Hl). reflexivity.
    + change 4.2%float with (4200 / 1000)%float. rewrite <- Hms.
      exact (active_time_observed r H Hns Hl).
Qed.

(** C5: active_time is among the requested columns exactly when the
    version is at least 14.0.0. Whatever the stream, an active_time
    observation that [Update] adds stems from a scanned row that has the
    value, on a version that requests it, and carries the row's raw value
    divided by 1000. And on such a version [Update] does send it, for
    every row that passes the guards with metrics that can be built and
    is reached without a panic: raw 2500 gives 2.5. *)
Theorem active_time_gate_and_scaling :
  (forall v : semver.Version,
      In "active_time" (columns v)
      <-> semver.GTE v (semver.plain 14 0 0) = true)
  /\ (forall (i : instance) (rows : list ScanOutcome) (w : World)
            (m : prometheus.Metric),
        served i = QueryRows rows ->
        In m (ch (snd (Update i w))) ->
        prometheus.desc m = statDatabaseActiveTime ->
        In m (ch w)
        \/ (semver.GTE (version i) (semver.plain 14 0 0) = true
            /\ exists r,
                 In (ScanOk r) rows
                 /\ sql.NullFloat64.Valid (activeTime r) = true
                 /\ prometheus.value m
                    = (sql.NullFloat64.Float64 (activeTime r) / 1000)%float))
  /\ (forall (i : instance) (pre : list Row) (r : Row)
            (post : list ScanOutcome) (w : World),
        semver.GTE (version i) (semver.plain 14 0 0) = true ->
        served i = QueryRows (scanned pre ++ ScanOk r :: post) ->
        Forall (fun r' => clean true r' = true) pre ->
        identityPresent r && numericPresent true r = true ->
        namespaceUsable = true -> sendable r = true ->
        In (prometheus.mkMetric statDatabaseActiveTime
              prometheus.CounterValue
              (sql.NullFloat64.Float64 (activeTime r) / 1000)%float
              (labelsOf r))
           (ch (snd (Update i w)))
        /\ (sql.NullFloat64.Float64 (activeTime r) = 2500%float ->
            In (prometheus.mkMetric statDatabaseActiveTime
                  prometheus.CounterValue 2.5%float (labelsOf r))
               (ch (snd (Update i w))))).
Proof.
  split; [|split].
  - intro v. unfold columns, activeTimeAvail.
    destruct (semver.GTE v (semver.plain 14 0 0)).
    + split; [reflexivity|]. intros _. apply in_or_app. right. now left.
    + split; [|discriminate]. cbv [baseColumns In]. intuition discriminate.
  - intros i rows w m Hs Hin Hd.
    rewrite (Update_channel i rows w Hs) in Hin.
    apply in_app_or in Hin as [Hin|Hin]; [now left|right].
    apply forRows_observation_origin in Hin as [r [Hr Hm]].
    fold (activeTimeAvail (version i)).
    destruct (observations_cases (activeTimeAvail (version i)) r)
      as [E|[Hp [_ [_ E]]]]; rewrite E in Hm; [contradiction|].
    apply in_map_iff in Hm as [e [<- He]].
    cbn [prometheus.desc observe] in Hd.
    destruct (activeTimeAvail (version i)).
    + split; [reflexivity|]. exists r. split; [exact Hr|]. split.
      * apply andb_true_iff in Hp as [_ Hp]. unfold numericPresent in Hp.
        apply andb_true_iff in Hp as [_ Hp]. exact Hp.
      * destruct (active_time_entry e He Hd) as [_ [_ Hv]]. exact (Hv r).
    + now destruct (removelast_catalog_no_active_time e He).
  - intros i pre r post w Hv Hs Hc Hp Hns Hl.
    fold (activeTimeAvail (version i)) in Hv.
    assert (Hc' : Forall (fun r' => clean (activeTimeAvail (version i)) r'
                                    = true) pre) by now rewrite Hv.
    assert (Hr : clean (activeTimeAvail (version i)) r = true)
      by exact (emitting_is_clean _ r Hns Hl).
    destruct (Update_reaches_row i pre r post w Hs Hc' Hr) as [Hobs _].
    rewrite Hv in Hobs.
    split.
    + apply Hobs. exact (active_time_observed r Hp Hns Hl).
    + intro Hms. apply Hobs. change 2.5%float with (2500 / 1000)%float.
      rewrite <- Hms. exact (active_time_observed r Hp Hns Hl).
Qed.

(** C6: a row that passes the guards while its reset timestamp is absent,
    and whose metrics can be built, has its stats_reset observation on
    the channel after [Update], a Counter of value 0; no other value is
    sent for stats_reset for that row; the note is logged; and the
    absence is no error: when the other rows scan without a panic,
    [Update] returns nil. *)
Theorem absent_reset_timestamp_defaults_to_zero
    (i : instance) (pre : list Row) (r : Row) (post : list ScanOutcome)
    (w : World) :
  served i = QueryRows (scanned pre ++ ScanOk r :: post) ->
  Forall (fun r' => clean (activeTimeAvail (version i)) r' = true) pre ->
  identityPresent r && numericPresent (activeTimeAvail (version i)) r = true ->
  namespaceUsable = true -> sendable r = true ->
  sql.NullTime.Valid (statsReset r) = false ->
  In (prometheus.mkMetric statDatabaseStatsReset prometheus.CounterValue
        0%float (labelsOf r))
     (ch (snd (Update i w)))
  /\ (forall m : prometheus.Metric,
        In m (observations (activeTimeAvail (version i)) r) ->
        prometheus.desc m = statDatabaseStatsReset ->
        prometheus.value m = 0%float
        /\ prometheus.valueType m = prometheus.CounterValue)
  /\ In "No metric for stats_reset, will collect 0 instead"
        (debugLog (snd (Update i w)))
  /\ (forall rs2 : list Row,
        post = scanned rs2 ->
        Forall (fun r' => clean (activeTimeAvail (version i)) r' = true) rs2 ->
        fst (Update i w) = Returned None).
Proof.
  intros Hs Hc Hp Hns Hl Hr.
  assert (Hclean : clean (activeTimeAvail (version i)) r = true)
    by exact (emitting_is_clean _ r Hns Hl).
  destruct (Update_reaches_row i pre r post w Hs Hc Hclean) as [Hobs Hlog].
  split; [|split; [|split]].
  - apply Hobs. pose proof (stats_reset_observed _ r Hp Hns Hl) as H.
    now rewrite Hr in H.
  - intros m Hin Hd.
    destruct (observations_cases (activeTimeAvail (version i)) r)
      as [E|[_ [_ [_ E]]]]; rewrite E in Hin; [contradiction|].
    apply in_map_iff in Hin as [e [<- He]].
    cbn [prometheus.desc prometheus.value prometheus.valueType observe] in *.
    destruct (activeTimeAvail (version i)); each_entry He;
      cbn [descriptor] in Hd; try (by_help Hd); cbn [reading kind];
      now rewrite Hr.
  - apply Hlog. unfold diagnostics.
    rewrite (loopBody_present _ r Hp Hns Hl). cbn [snd debugLog].
    unfold resetNote. rewrite Hr. now left.
  - intros rs2 -> Hc2.
    apply (Update_without_panic i r pre rs2 w Hs Hclean).
    apply Forall_app. now split.
Qed.

(** C10: every observation of a row carries the labels [datid; datname];
    and when the row is emitted, the Gauge observations are exactly the
    numbackends one, every other observation is a Counter, among them
    the stats_reset one and, when requested, the active_time one. *)
Theorem one_gauge_rest_counters_two_labels (avail : bool) (r : Row) :
  Forall (fun m => prometheus.labelValues m
                   = [sql.NullString.String (datid r);
                      sql.NullString.String (datname r)])
         (observations avail r)
  /\ (observations avail r = []
      \/ (filter isGauge (observations avail r)
            = [prometheus.mkMetric statDatabaseNumbackends
                 prometheus.GaugeValue
                 (sql.NullFloat64.Float64 (numBackends r)) (labelsOf r)]
          /\ Forall (fun m => isGauge m = false ->
                              prometheus.valueType m = prometheus.CounterValue)
                    (observations avail r)
          /\ (exists x, In (prometheus.mkMetric statDatabaseStatsReset
                              prometheus.CounterValue x (labelsOf r))
                           (observations avail r))
          /\ (avail = true ->
              exists x, In (prometheus.mkMetric statDatabaseActiveTime
                              prometheus.CounterValue x (labelsOf r))
                           (observations avail r)))).
Proof.
  destruct (observations_cases avail r) as [E|[Hp [Hns [Hl E]]]].
  - rewrite E. split; [constructor|now left].
  - split.
    + rewrite E. apply Forall_map, Forall_forall. intros e _. reflexivity.
    + right. split; [|split; [|split]].
      * rewrite E. now destruct avail.
      * rewrite E. apply Forall_map, Forall_forall. intros e He.
        unfold isGauge. cbn [prometheus.valueType observe].
        destruct avail; each_entry He; cbn [kind];
          first [reflexivity | discriminate].
      * eexists. exact (stats_reset_observed avail r Hp Hns Hl).
      * intros ->. eexists. exact (active_time_observed r Hp Hns Hl).
Qed.

(* ------------------------------------------------------------------ *)
(** ** Column selection *)

Ltac cases_N :=
  repeat match goal with
         | H : context [N.eqb ?a ?b] |- _ => destruct (N.eqb_spec a b)
         | H : context [N.ltb ?a ?b] |- _ => destruct (N.ltb_spec a b)
         | |- context [N.eqb ?a ?b] => destruct (N.eqb_spec a b)
         | |- context [N.ltb ?a ?b] => destruct (N.ltb_spec a b)
         end.

(** What [GTE] says about the numbers of two versions, and about their
    pre-release parts when the numbers agree. *)
Lemma GTE_numbers (v o : semver.Version) :
  semver.GTE v o = true ->
  (semver.Major o < semver.Major v)%N
  \/ (semver.Major v = semver.Major o
      /\ ((semver.Minor o < semver.Minor v)%N
          \/ (semver.Minor v = semver.Minor o
              /\ ((semver.Patch o < semver.Patch v)%N
                  \/ (semver.Patch v = semver.Patch o
                      /\ (semver.Pre o = [] -> semver.Pre v = [])))))).
Proof.
  destruct v as [M1 m1 p1 pre1 b1], o as [M2 m2 p2 pre2 b2].
  unfold semver.GTE, semver.Compare.
  cbn [semver.Major semver.Minor semver.Patch semver.Pre].
  intro H. cases_N; cbn [negb] in H; try discriminate H; try tauto.
  right. split; [assumption|]. right. split; [assumption|]. right.
  split; [assumption|]. intros ->. now destruct pre1.
Qed.

Lemma GTE_14_numbers (v : semver.Version) :
  semver.GTE v (semver.plain 14 0 0) = true
  <-> (14 < semver.Major v)%N
      \/ (semver.Major v = 14%N
          /\ ((0 < semver.Minor v)%N
              \/ (semver.Minor v = 0%N
                  /\ ((0 < semver.Patch v)%N
                      \/ (semver.Patch v = 0%N /\ semver.Pre v = []))))).
Proof.
  destruct v as [M m p pre b].
  unfold semver.GTE, semver.Compare, semver.plain.
  cbn [semver.Major semver.Minor semver.Patch semver.Pre].
  split.
  - intro H. cases_N; cbn [negb] in H; try discriminate H; try tauto.
    destruct pre; [tauto|discriminate H].
  - intro H. cases_N; cbn [negb]; try reflexivity; try lia.
    destruct pre; [reflexivity|]. exfalso.
    destruct H as [H|[_ [H|[_ [H|[_ H]]]]]]; try lia; discriminate H.
Qed.

(** A version at least as high as one that reaches 14.0.0 reaches it too. *)
Lemma GTE_14_upward (v1 v2 : semver.Version) :
  semver.GTE v1 v2 = true ->
  semver.GTE v2 (semver.plain 14 0 0) = true ->
  semver.GTE v1 (semver.plain 14 0 0) = true.
Proof.
  intros H1 H2. apply GTE_numbers in H1. apply GTE_14_numbers in H2.
  apply GTE_14_numbers.
  destruct H1 as [H1|[E1 [H1|[E2 [H1|[E3 H1]]]]]];
    destruct H2 as [H2|[F1 [H2|[F2 [H2|[F3 H2]]]]]];
    try (left; lia);
    try (right; split; [lia|]; left; lia);
    try (right; split; [lia|]; right; split; [lia|]; left; lia).
  right; split; [lia|]; right; split; [lia|]; right; split; [lia|].
  exact (H1 H2).
Qed.

(** C7: the column set is the fixed list followed by the gated columns
    whose version is reached, in the order of the table; [Update] depends
    on the database only through its answer to the query for that column
    set; and when V1 >= V2 every gated column requested for V2 is
    requested for V1. *)
Theorem column_selection_deterministic_monotone :
  (forall v : semver.Version,
      columns v
      = baseColumns
          ++ map fst (filter (fun g => semver.GTE v (snd g)) versionGated))
  /\ (forall (i i' : instance) (w : World),
        version i = version i' ->
        QueryContext (getDB i) (statDatabaseQuery (columns (version i)))
        = QueryContext (getDB i') (statDatabaseQuery (columns (version i))) ->
        Update i w = Update i' w)
  /\ (forall v1 v2 : semver.Version,
        semver.GTE v1 v2 = true ->
        incl (filter isGated (columns v2)) (filter isGated (columns v1))).
Proof.
  split; [|split].
  - intro v. unfold columns, activeTimeAvail, versionGated.
    cbn [filter snd]. destruct (semver.GTE v (semver.plain 14 0 0));
      cbn [map fst]; [reflexivity|now rewrite app_nil_r].
  - intros i i' w Hv Hq. unfold Update. now rewrite <- Hv, Hq.
  - intros v1 v2 H. unfold columns, activeTimeAvail.
    destruct (semver.GTE v2 (semver.plain 14 0 0)) eqn:H2.
    + rewrite (GTE_14_upward v1 v2 H H2). apply incl_refl.
    + intros c Hc. exfalso. revert Hc. cbv. exact (fun f => f).
Qed.

(* ------------------------------------------------------------------ *)
(** ** The query text *)

Lemma ContainsByte_app (a b : string) (c : ascii) :
  strings.ContainsByte (a ++ b) c
  = strings.ContainsByte a c || strings.ContainsByte b c.
Proof.
  induction a as [|x a IH]; [reflexivity|].
  cbn [append strings.ContainsByte]. now rewrite IH, orb_assoc.
Qed.

Lemma Split_without_sep (x : string) (sep : ascii) :
  strings.ContainsByte x sep = false -> strings.Split x sep = [x].
Proof.
  induction x as [|c x IH]; [reflexivity|].
  cbn [strings.ContainsByte strings.Split]. intro H.
  apply orb_false_iff in H as [Hc Hx]. now rewrite Hc, (IH Hx).
Qed.

Lemma Split_at_sep (x rest : string) (sep : ascii) :
  strings.ContainsByte x sep = false ->
  strings.Split (x ++ String sep rest) sep = x :: strings.Split rest sep.
Proof.
  induction x as [|c x IH]; cbn [append strings.ContainsByte strings.Split].
  - intros _. now rewrite Ascii.eqb_refl.
  - intro H. apply orb_false_iff in H as [Hc Hx]. now rewrite Hc, (IH Hx).
Qed.

Lemma Split_Join (cols : list string) :
  cols <> [] ->
  Forall (fun c => strings.ContainsByte c "," = false) cols ->
  strings.Split (strings.Join cols ",") "," = cols.
Proof.
  induction cols as [|c cs IH]; [congruence|]. intros _ H.
  inversion H as [|? ? Hc Hcs]; subst.
  destruct cs as [|c' cs]; [exact (Split_without_sep c _ Hc)|].
  change (strings.Join (c :: c' :: cs) ",")
    with (c ++ String "," (strings.Join (c' :: cs) ","))%string.
  rewrite (Split_at_sep c _ _ Hc). f_equal. apply IH; [discriminate|exact Hcs].
Qed.

Lemma Join_without (cols : list string) (b : ascii) :
  Ascii.eqb "," b = false ->
  Forall (fun c => strings.ContainsByte c b = false) cols ->
  strings.ContainsByte (strings.Join cols ",") b = false.
Proof.
  intros Hb H. induction H as [|c cs Hc Hcs IH]; [reflexivity|].
  destruct cs as [|c' cs]; [exact Hc|].
  change (strings.Join (c :: c' :: cs) ",")
    with (c ++ String "," (strings.Join (c' :: cs) ","))%string.
  rewrite ContainsByte_app. cbn [strings.ContainsByte].
  now rewrite Hc, Hb, IH.
Qed.

(** C8: for a non-empty list of column names (texts without comma or
    space), the query text is made of exactly four words, SELECT, the
    select list, FROM and the view name with its semicolon: nothing
    follows the view, so there is no filtering clause; and the select
    list, split at its commas, is the given list in the given order. *)
Theorem query_selects_exactly_the_columns (cols : list string) :
  cols <> [] ->
  Forall (fun c => strings.ContainsByte c "," = false
                   /\ strings.ContainsByte c " " = false) cols ->
  strings.Split (statDatabaseQuery cols) " "
  = ["SELECT"; strings.Join cols ","; "FROM"; "pg_stat_database;"]
  /\ strings.Split (strings.Join cols ",") "," = cols.
Proof.
  intros Hne H.
  assert (Hcomma : Forall (fun c => strings.ContainsByte c "," = false) cols)
    by (eapply Forall_impl; [|exact H]; now intros c [? _]).
  assert (Hspace : Forall (fun c => strings.ContainsByte c " " = false) cols)
    by (eapply Forall_impl; [|exact H]; now intros c [_ ?]).
  split; [|exact (Split_Join cols Hne Hcomma)].
  unfold statDatabaseQuery.
  change ("SELECT " ++ strings.Join cols "," ++ " FROM pg_stat_database;")%string
    with ("SELECT"
            ++ String " "
                 (strings.Join cols ","
                    ++ String " " ("FROM" ++ String " " "pg_stat_database;")))%string.
  rewrite (Split_at_sep "SELECT" _ " " eq_refl).
  rewrite (Split_at_sep _ _ " " (Join_without cols " " eq_refl Hspace)).
  reflexivity.
Qed.


(* ------------------------------------------------------------------ *)
(** ** [Update] on arbitrary result streams *)

(** The result of [Update] is decided by the stream alone. It is nil
    exactly when the query succeeds, every row scans and the body panics
    on none; it is an error exactly when the query fails with it, or a
    Scan fails with it after rows on which the body did not panic; and
    [Update] panics exactly when, before any failing Scan, a row passes
    the guards while its metrics cannot be built (a label value that is
    not valid UTF-8, or descriptors made unusable by the namespace). *)
Theorem Update_result_characterised (i : instance) (w : World) :
  (fst (Update i w) = Returned None
   <-> exists rs,
         served i = QueryRows (scanned rs)
         /\ Forall (fun r => clean (activeTimeAvail (version i)) r = true) rs)
  /\ (forall err,
        fst (Update i w) = Returned (Some err)
        <-> served i = QueryErr err
            \/ exists rs post,
                 served i = QueryRows (scanned rs ++ ScanFail err :: post)
                 /\ Forall (fun r => clean (activeTimeAvail (version i)) r
                                     = true) rs)
  /\ (fst (Update i w) = Panicked
      <-> exists rs r post,
            served i = QueryRows (scanned rs ++ ScanOk r :: post)
            /\ Forall (fun r => clean (activeTimeAvail (version i)) r = true)
                      rs
            /\ reachesEmission (activeTimeAvail (version i)) r = true
            /\ namespaceUsable && sendable r = false).
Proof.
  assert (Hserved : (exists e0, served i = QueryErr e0)
                    \/ (exists rows, served i = QueryRows rows))
    by (destruct (served i) as [e0|rows];
        [left; now exists e0|right; now exists rows]).
  assert (Hnil : forall rs,
             served i = QueryRows (scanned rs) ->
             Forall (fun r => clean (activeTimeAvail (version i)) r = true) rs ->
             fst (Update i w) = Returned None)
    by (intros rs Hs Hc; now rewrite (Update_scanned i rs w Hs Hc)).
  assert (Herr : forall rs err post,
             served i = QueryRows (scanned rs ++ ScanFail err :: post) ->
             Forall (fun r => clean (activeTimeAvail (version i)) r = true) rs ->
             fst (Update i w) = Returned (Some err))
    by (intros rs err post Hs Hc;
        exact (proj1 (Update_failure i rs err post w Hs Hc))).
  assert (Hpanic : forall rs r post,
             served i = QueryRows (scanned rs ++ ScanOk r :: post) ->
             Forall (fun r => clean (activeTimeAvail (version i)) r = true) rs ->
             clean (activeTimeAvail (version i)) r = false ->
             fst (Update i w) = Panicked)
    by (intros rs r post Hs Hc Hr;
        exact (proj1 (Update_panic i rs r post w Hs Hc Hr))).
  assert (Hunclean : forall r,
             clean (activeTimeAvail (version i)) r = false
             <-> reachesEmission (activeTimeAvail (version i)) r = true
                 /\ namespaceUsable && sendable r = false).
  { intro r. unfold clean.
    destruct (reachesEmission (activeTimeAvail (version i)) r);
      destruct (namespaceUsable && sendable r); cbn; intuition congruence. }
  assert (Hqerr : forall e0, served i = QueryErr e0 ->
                             fst (Update i w) = Returned (Some e0)).
  { intros e0 Hs. unfold served in Hs. unfold Update. now rewrite Hs. }
  assert (Hshape :
    (exists e0, served i = QueryErr e0 /\ fst (Update i w) = Returned (Some e0))
    \/ (exists rs, served i = QueryRows (scanned rs)
                   /\ Forall (fun r => clean (activeTimeAvail (version i)) r
                                       = true) rs
                   /\ fst (Update i w) = Returned None)
    \/ (exists rs e0 post,
          served i = QueryRows (scanned rs ++ ScanFail e0 :: post)
          /\ Forall (fun r => clean (activeTimeAvail (version i)) r = true) rs
          /\ fst (Update i w) = Returned (Some e0))
    \/ (exists rs r post,
          served i = QueryRows (scanned rs ++ ScanOk r :: post)
          /\ Forall (fun r => clean (activeTimeAvail (version i)) r = true) rs
          /\ clean (activeTimeAvail (version i)) r = false
          /\ fst (Update i w) = Panicked)).
  { destruct Hserved as [[e0 Hs]|[rows Hs]].
    - left. exists e0. split; [exact Hs|exact (Hqerr e0 Hs)].
    - right.
      destruct (stream_shape (activeTimeAvail (version i)) rows)
        as [[rs [-> Hc]]|[[rs [e0 [post [-> Hc]]]]
                         |[rs [r [post [-> [Hc Hr]]]]]]].
      + left. exists rs.
        split; [exact Hs|]. split; [exact Hc|exact (Hnil rs Hs Hc)].
      + right. left. exists rs, e0, post.
        split; [exact Hs|]. split; [exact Hc|exact (Herr rs e0 post Hs Hc)].
      + right. right. exists rs, r, post.
        split; [exact Hs|]. split; [exact Hc|].
        split; [exact Hr|exact (Hpanic rs r post Hs Hc Hr)]. }
  split; [|split].
  - split.
    + intro E.
      destruct Hshape as [[e0 [_ E']]|[[rs [Hs [Hc _]]]
                         |[[rs [e0 [post [_ [_ E']]]]]
                          |[rs [r [post [_ [_ [_ E']]]]]]]]];
        try (rewrite E in E'; discriminate E').
      now exists rs.
    + intros [rs [Hs Hc]]. exact (Hnil rs Hs Hc).
  - intro err. split.
    + intro E.
      destruct Hshape as [[e0 [Hs E']]|[[rs [_ [_ E']]]
                         |[[rs [e0 [post [Hs [Hc E']]]]]
                          |[rs [r [post [_ [_ [_ E']]]]]]]]];
        rewrite E in E'; try discriminate E'; injection E' as <-.
      * now left.
      * right. now exists rs, post.
    + intros [Hs|[rs [post [Hs Hc]]]];
        [exact (Hqerr err Hs)|exact (Herr rs err post Hs Hc)].
  - split.
    + intro E.
      destruct Hshape as [[e0 [_ E']]|[[rs [_ [_ E']]]
                         |[[rs [e0 [post [_ [_ E']]]]]
                          |[rs [r [post [Hs [Hc [Hr _]]]]]]]]];
        try (rewrite E in E'; discriminate E').
      exists rs, r, post. apply Hunclean in Hr as [Hr1 Hr2].
      repeat split; assumption.
    + intros [rs [r [post [Hs [Hc [Hr1 Hr2]]]]]].
      exact (Hpanic rs r post Hs Hc (proj2 (Hunclean r) (conj Hr1 Hr2))).
Qed.

(** Rows that scan without a panic at the head of a stream contribute
    their observations in stream order, and the rest of the stream is
    handled as if it were the whole stream: same result, its
    observations coming after. *)
Theorem Update_stream_composes
    (i i' : instance) (rs : list Row) (rest : list ScanOutcome) (w : World) :
  version i' = version i ->
  served i = QueryRows (scanned rs ++ rest) ->
  served i' = QueryRows rest ->
  Forall (fun r => clean (activeTimeAvail (version i)) r = true) rs ->
  fst (Update i w) = fst (Update i' w)
  /\ ch (snd (Update i w))
     = (ch w ++ flat_map (observations (activeTimeAvail (version i))) rs)
         ++ ch (snd (Update i' emptyWorld)).
Proof.
  intros Hv Hs Hs' Hc.
  rewrite (Update_rows i _ w Hs), (Update_rows i' _ w Hs'),
    (Update_rows i' _ emptyWorld Hs'), Hv, (forRows_scanned_then _ rs rest Hc).
  cbn [fst snd extend ch]. split; [reflexivity|].
  now rewrite app_assoc.
Qed.

Lemma flat_map_observations (avail : bool) (rs : list Row) :
  Forall (fun r => clean avail r = true) rs ->
  flat_map (observations avail) rs
  = flat_map (completeSet (columnsWhen avail)) (filter (reachesEmission avail) rs).
Proof.
  induction 1 as [|r rs Hr Hrs IH]; [reflexivity|].
  cbn [flat_map filter]. rewrite observations_reaches, IH.
  unfold clean in Hr.
  destruct (reachesEmission avail r); cbn [negb orb andb] in *;
    [rewrite Hr|]; cbn [flat_map app]; reflexivity.
Qed.

Lemma completeSet_length (avail : bool) (r : Row) :
  List.length (completeSet (columnsWhen avail) r) = if avail then 18 else 17.
Proof. now destruct avail. Qed.

(** When every row scans and the body panics on none, the channel
    receives the complete sets of the rows that pass the guards, in
    stream order, and nothing for the other rows: 17 observations (18
    with active_time) per passing row. *)
Theorem Update_channel_of_scanned_stream
    (i : instance) (rs : list Row) (w : World) :
  served i = QueryRows (scanned rs) ->
  Forall (fun r => clean (activeTimeAvail (version i)) r = true) rs ->
  ch (snd (Update i w))
  = ch w ++ flat_map (completeSet (columns (version i)))
             (filter (reachesEmission (activeTimeAvail (version i))) rs)
  /\ List.length (ch (snd (Update i w)))
     = List.length (ch w)
       + (if activeTimeAvail (version i) then 18 else 17)
         * List.length
             (filter (reachesEmission (activeTimeAvail (version i))) rs).
Proof.
  intros Hs Hc. rewrite (Update_scanned i rs w Hs Hc). cbn [snd extend ch].
  rewrite (flat_map_observations _ rs Hc).
  change (columns (version i))
    with (columnsWhen (activeTimeAvail (version i))).
  split; [reflexivity|]. rewrite length_app. f_equal.
  induction (filter (reachesEmission (activeTimeAvail (version i))) rs)
    as [|r l IH]; [now rewrite Nat.mul_0_r|].
  cbn [flat_map List.length]. rewrite length_app, IH, completeSet_length.
  lia.
Qed.

(* ------------------------------------------------------------------ *)
(** ** Diagnostics and provenance *)

Ltac next_guard :=
  match goal with
  | |- context [if negb ?b then Some (_, ?b) else _] =>
      is_var b; destruct b; cbn [negb fst snd]
  end.

(** The guards stand in the order of the requested columns, stats_reset
    left out; a row reaches emission exactly when no guard finds its
    value absent; a skipped row sends nothing and logs the one message
    that names the first absent column in that order, whatever else is
    absent; a row that reaches emission logs at most the stats_reset
    note, and then sends the complete set when its metrics can be built,
    and panics without sending anything when they cannot. *)
Theorem skip_message_names_first_absent_column (avail : bool) (r : Row) :
  map fst (guarded avail r)
  = filter (fun c => negb (String.eqb c "stats_reset")) (columnsWhen avail)
  /\ reachesEmission avail r = forallb snd (guarded avail r)
  /\ match firstAbsent (guarded avail r) with
     | Some c =>
         loopBody avail (ScanOk r) emptyWorld
         = (Continue,
            mkWorld []
              [("Skipping collecting metric because it has no " ++ c)%string])
     | None =>
         loopBody avail (ScanOk r) emptyWorld
         = if namespaceUsable && sendable r
           then (Normal tt,
                 mkWorld (completeSet (columnsWhen avail) r) (resetNote r))
           else (Panic, mkWorld [] (resetNote r))
     end.
Proof.
  split; [now destruct avail|]. split.
  - unfold reachesEmission, identityPresent, numericPresent, guarded.
    destruct avail; cbn [app forallb snd negb orb];
      rewrite ?andb_true_r, ?andb_assoc; reflexivity.
  - assert (Hall : reachesEmission avail r = true ->
                   loopBody avail (ScanOk r) emptyWorld
                   = if namespaceUsable && sendable r
                     then (Normal tt,
                           mkWorld (completeSet (columnsWhen avail) r)
                                   (resetNote r))
                     else (Panic, mkWorld [] (resetNote r))).
    { intro H. destruct (namespaceUsable && sendable r) eqn:Hp.
      - apply andb_true_iff in Hp as [Hns Hl].
        exact (loopBody_present avail r H Hns Hl).
      - exact (loopBody_panics avail r H Hp). }
    revert Hall. unfold guarded, firstAbsent. open_row r.
    destruct avail; cbn [app find snd fst negb];
      repeat (next_guard; [|intros _; reflexivity]);
      intro Hall; exact (Hall eq_refl).
Qed.

(** A row is handled without any debug message exactly when it has a
    value in every requested column, the reset timestamp included. *)
Theorem silent_iff_all_present (avail : bool) (r : Row) :
  diagnostics avail r = [] <-> allPresent avail r = true.
Proof.
  unfold allPresent, diagnostics.
  destruct (identityPresent r && numericPresent avail r) eqn:H.
  - assert (Hd : debugLog (snd (loopBody avail (ScanOk r) emptyWorld))
                 = resetNote r).
    { destruct (namespaceUsable && sendable r) eqn:Hp.
      - apply andb_true_iff in Hp as [Hns Hl].
        now rewrite (loopBody_present avail r H Hns Hl).
      - now rewrite (loopBody_panics avail r H Hp). }
    rewrite Hd. cbn [andb].
    unfold resetNote. destruct (sql.NullTime.Valid (statsReset r));
      split; intro E; try reflexivity; discriminate E.
  - destruct (loopBody_absent avail r H) as [msg E]. rewrite E.
    cbn [snd debugLog andb]. split; intro E'; discriminate E'.
Qed.


(** Whatever the stream, every observation that [Update] adds to the
    channel stems from a row of the stream that scanned and passed the
    guards: it is the observation of that row for an active catalog
    entry, labelled with the row's datid and datname. *)
Theorem Update_observations_come_from_rows
    (i : instance) (rows : list ScanOutcome) (w : World)
    (m : prometheus.Metric) :
  served i = QueryRows rows ->
  In m (ch (snd (Update i w))) ->
  In m (ch w)
  \/ exists r e,
       In (ScanOk r) rows
       /\ reachesEmission (activeTimeAvail (version i)) r = true
       /\ In e (activeCatalog (columns (version i)))
       /\ m = observe r e
       /\ prometheus.labelValues m
          = [sql.NullString.String (datid r);
             sql.NullString.String (datname r)].
Proof.
  intros Hs Hin. rewrite (Update_channel i rows w Hs) in Hin.
  apply in_app_or in Hin as [Hin|Hin]; [left; exact Hin|right].
  apply forRows_observation_origin in Hin as [r [Hr Hm]].
  apply observation_of_row in Hm as [Hp [e [He Hm]]].
  exists r, e. split; [exact Hr|]. split; [exact Hp|].
  split; [exact He|]. split; [exact Hm|]. now rewrite Hm.
Qed.


(** A row that passes the guards with a reset timestamp, and whose
    metrics can be built, has on the channel after [Update] the
    stats_reset Counter with the timestamp's Unix seconds converted to
    float64, and no other value is sent for stats_reset for that row. *)
Theorem present_reset_timestamp_is_unix_seconds
    (i : instance) (pre : list Row) (r : Row) (post : list ScanOutcome)
    (w : World) :
  served i = QueryRows (scanned pre ++ ScanOk r :: post) ->
  Forall (fun r' => clean (activeTimeAvail (version i)) r' = true) pre ->
  reachesEmission (activeTimeAvail (version i)) r = true ->
  namespaceUsable = true -> sendable r = true ->
  sql.NullTime.Valid (statsReset r) = true ->
  In (prometheus.mkMetric statDatabaseStatsReset prometheus.CounterValue
        (float64_of_int64 (sql.Unix (sql.NullTime.Time (statsReset r))))
        (labelsOf r))
     (ch (snd (Update i w)))
  /\ (forall m : prometheus.Metric,
        In m (observations (activeTimeAvail (version i)) r) ->
        prometheus.desc m = statDatabaseStatsReset ->
        prometheus.value m
        = float64_of_int64 (sql.Unix (sql.NullTime.Time (statsReset r)))).
Proof.
  intros Hs Hc Hp Hns Hl Hr. split.
  - apply (proj1 (Update_reaches_row i pre r post w Hs Hc
                    (emitting_is_clean _ r Hns Hl))).
    pose proof (stats_reset_observed _ r Hp Hns Hl) as H.
    now rewrite Hr in H.
  - intros m Hin Hd.
    destruct (observations_cases (activeTimeAvail (version i)) r)
      as [E|[_ [_ [_ E]]]]; rewrite E in Hin; [contradiction|].
    apply in_map_iff in Hin as [e [<- He]].
    cbn [prometheus.desc prometheus.value observe] in *.
    destruct (activeTimeAvail (version i)); each_entry He;
      cbn [descriptor] in Hd; try (by_help Hd); cbn [reading];
      now rewrite Hr.
Qed.

(* ------------------------------------------------------------------ *)
(** ** The descriptors *)

Lemma append_inj_l (p a b : string) : (p ++ a = p ++ b)%string -> a = b.
Proof.
  induction p as [|x p IH]; cbn; intro H; [exact H|].
  injection H as H. exact (IH H).
Qed.

Lemma length_append (a b : string) :
  String.length (a ++ b) = String.length a + String.length b.
Proof. induction a as [|x a IH]; cbn; [reflexivity|now rewrite IH]. Qed.

Lemma append_inj_r (s a b : string) : (a ++ s = b ++ s)%string -> a = b.
Proof.
  revert b. induction a as [|x a IH]; intros [|y b] H; cbn in H.
  - reflexivity.
  - apply (f_equal String.length) in H. cbn in H.
    rewrite length_append in H. lia.
  - apply (f_equal String.length) in H. cbn in H.
    rewrite length_append in H. lia.
  - injection H as -> H. f_equal. exact (IH b H).
Qed.

Lemma NoDup_map_prefix (p : string) (l : list string) :
  NoDup l -> NoDup (map (append p) l).
Proof.
  induction 1 as [|x l Hx Hl IH]; cbn; constructor; [|exact IH].
  intro H. apply in_map_iff in H as [y [E Hy]].
  apply append_inj_l in E. now subst.
Qed.

Lemma shortNames_NoDup : NoDup shortNames.
Proof.
  unfold shortNames.
  repeat (constructor; [cbv [In]; intuition discriminate|]). constructor.
Qed.

Lemma catalog_names :
  map (fun e => prometheus.fqName (descriptor e)) catalog
  = map (append namePrefix) shortNames.
Proof.
  change (map (fun e => prometheus.fqName (descriptor e)) catalog)
    with (map (prometheus.BuildFQName namespace statDatabaseSubsystem)
            shortNames).
  apply map_ext_in. intros n Hn. apply BuildFQName_stat_database.
  intros ->. revert Hn. cbv [shortNames In]. intuition discriminate.
Qed.

Lemma catalog_names_NoDup :
  NoDup (map (fun e => prometheus.fqName (descriptor e)) catalog).
Proof.
  rewrite catalog_names. exact (NoDup_map_prefix namePrefix _ shortNames_NoDup).
Qed.

Lemma catalog_descriptors_NoDup (avail : bool) :
  NoDup (map descriptor (if avail then catalog else removelast catalog)).
Proof.
  assert (H : NoDup (map descriptor catalog)).
  { apply (NoDup_map_inv prometheus.fqName). rewrite map_map.
    exact catalog_names_NoDup. }
  destruct avail; [exact H|].
  change catalog
    with (removelast catalog
            ++ [mkEntry "active_time" statDatabaseActiveTime
                  prometheus.CounterValue
                  (fun r => (sql.NullFloat64.Float64 (activeTime r) / 1000)%float)])
    in H.
  rewrite map_app in H. exact (NoDup_app_remove_r _ _ H).
Qed.

(** The eighteen descriptors have pairwise distinct names, each the
    metric's own name behind the prefix "<namespace>_stat_database_"
    ("stat_database_" for an empty namespace), the variable labels datid
    and datname and no constant label. They are usable together or not at
    all, as the namespace decides; and [MustNewConstMetric] with two
    label values succeeds exactly when they are usable and both values
    are valid UTF-8. *)
Theorem descriptor_names_are_distinct :
  NoDup (map (fun e => prometheus.fqName (descriptor e)) catalog)
  /\ map (fun e => prometheus.fqName (descriptor e)) catalog
     = map (append namePrefix) shortNames
  /\ Forall (fun e => prometheus.variableLabels (descriptor e)
                      = ["datid"; "datname"]
                      /\ prometheus.constLabels (descriptor e) = [])
            catalog
  /\ Forall (fun e => usable (descriptor e) = namespaceUsable) catalog
  /\ (forall (e : Entry) (v : float) (a b : string),
        In e catalog ->
        prometheus.MustNewConstMetric (descriptor e) (kind e) v [a; b]
        = if namespaceUsable && (utf8.ValidString a && utf8.ValidString b)
          then Some (prometheus.mkMetric (descriptor e) (kind e) v [a; b])
          else None).
Proof.
  split; [exact catalog_names_NoDup|]. split; [exact catalog_names|].
  split; [|split].
  - unfold catalog. repeat (constructor; [split; reflexivity|]). constructor.
  - unfold catalog.
    repeat (constructor;
            [cbn [descriptor]; apply stat_desc_usable;
             [discriminate|reflexivity]|]).
    constructor.
  - intros e v a b He. each_entry He; cbn [descriptor kind];
      apply MustNewConstMetric_stat; (discriminate || reflexivity).
Qed.

(** A row never sends two observations for the same descriptor. *)
Theorem no_descriptor_twice_per_row (avail : bool) (r : Row) :
  NoDup (map prometheus.desc (observations avail r)).
Proof.
  destruct (observations_cases avail r) as [E|[_ [_ [_ E]]]]; rewrite E;
    [constructor|].
  rewrite map_map. cbn [prometheus.desc observe].
  exact (catalog_descriptors_NoDup avail).
Qed.

(* ------------------------------------------------------------------ *)
(** ** The version gate and the query text, continued *)

(** active_time is requested exactly for the versions above 14, and for
    the versions 14.x.y that are not a pre-release of 14.0.0; build
    metadata plays no part. *)
Theorem active_time_availability (v : semver.Version) :
  (activeTimeAvail v = true
   <-> (14 < semver.Major v)%N
       \/ (semver.Major v = 14%N
           /\ ((0 < semver.Minor v)%N \/ (0 < semver.Patch v)%N
               \/ semver.Pre v = [])))
  /\ (forall b : list string,
        activeTimeAvail (withBuild v b) = activeTimeAvail v)
  /\ (semver.Major v = 14%N -> semver.Minor v = 0%N ->
      semver.Patch v = 0%N -> semver.Pre v <> [] ->
      activeTimeAvail v = false).
Proof.
  assert (H : activeTimeAvail v = true
              <-> (14 < semver.Major v)%N
                  \/ (semver.Major v = 14%N
                      /\ ((0 < semver.Minor v)%N \/ (0 < semver.Patch v)%N
                          \/ semver.Pre v = []))).
  { unfold activeTimeAvail. rewrite GTE_14_numbers. split.
    - intros [H|[H1 [H|[H2 [H|[H3 H]]]]]]; auto 6.
    - intros [H|[H1 [H|[H|H]]]]; [now left|right; split; auto..].
      + destruct (N.eq_0_gt_0_cases (semver.Minor v)) as [E|E];
          [right; split; [exact E|now left]|now left].
      + destruct (N.eq_0_gt_0_cases (semver.Minor v)) as [E|E];
          [right; split; [exact E|]|now left].
        destruct (N.eq_0_gt_0_cases (semver.Patch v)) as [E'|E'];
          [right; split; assumption|now left]. }
  split; [exact H|]. split.
  - intro b. now destruct v.
  - intros H1 H2 H3 Hp. apply not_true_is_false. intro E.
    apply H in E. destruct E as [E|[_ [E|[E|E]]]]; try lia. contradiction.
Qed.

(** On non-empty lists of comma-free names the query text determines the
    column list: two lists with the same text are the same list. *)
Theorem query_text_determines_columns (cols1 cols2 : list string) :
  cols1 <> [] -> cols2 <> [] ->
  Forall (fun c => strings.ContainsByte c "," = false) cols1 ->
  Forall (fun c => strings.ContainsByte c "," = false) cols2 ->
  statDatabaseQuery cols1 = statDatabaseQuery cols2 ->
  cols1 = cols2.
Proof.
  intros N1 N2 F1 F2 H. unfold statDatabaseQuery in H.
  apply append_inj_l, append_inj_r in H.
  rewrite <- (Split_Join cols1 N1 F1), <- (Split_Join cols2 N2 F2).
  now rewrite H.
Qed.

End Collector.

(* ------------------------------------------------------------------ *)
(** ** The theorems at sample inputs, for the namespace "pg" *)

(** utf8.ValidString on well-formed and ill-formed texts. *)
Lemma ValidString_samples :
  utf8.ValidString "appdb" = true
  /\ utf8.ValidString latin1Name = false
  /\ utf8.ValidString (String (ascii_of_N 195) (String (ascii_of_N 169) ""))
     = true
  /\ utf8.ValidString (String (ascii_of_N 192) (String (ascii_of_N 128) ""))
     = false
  /\ utf8.ValidString
       (String (ascii_of_N 237)
          (String (ascii_of_N 160) (String (ascii_of_N 128) "")))
     = false
  /\ utf8.ValidString
       (String (ascii_of_N 240)
          (String (ascii_of_N 159)
             (String (ascii_of_N 152) (String (ascii_of_N 128) ""))))
     = true
  /\ utf8.ValidString
       (String (ascii_of_N 244)
          (String (ascii_of_N 144)
             (String (ascii_of_N 128) (String (ascii_of_N 128) ""))))
     = false
  /\ utf8.ValidString (String (ascii_of_N 226) (String (ascii_of_N 130) ""))
     = false.
Proof. repeat split; reflexivity. Qed.

(** With only the deadlock count absent, the row of "appdb" sends nothing:
    not one observation fewer than the 17 of the complete row. *)
Lemma one_missing_column_is_not_one_fewer :
  identityPresent rowNoDeadlocks = true
  /\ numericPresent false (sampleRow true true true 4200) = true
  /\ List.length (observations "pg" model.LegacyValidation false fullRow) = 17
  /\ ~ (List.length
          (observations "pg" model.LegacyValidation false rowNoDeadlocks) + 1
        = List.length (observations "pg" model.LegacyValidation false fullRow))
  /\ ~ In (prometheus.mkMetric
             (statDatabaseNumbackends "pg" model.LegacyValidation)
             prometheus.GaugeValue 3%float ["12345"; "appdb"])
          (observations "pg" model.LegacyValidation false rowNoDeadlocks)
  /\ Update "pg" model.LegacyValidation
        (instanceOf v13 (QueryRows [ScanOk rowNoDeadlocks])) emptyWorld
     = (Returned None,
        mkWorld []
          ["Skipping collecting metric because it has no deadlocks"]).
Proof.
  split; [reflexivity|]. split; [reflexivity|].
  split; [vm_compute; reflexivity|].
  split; [intro H; vm_compute in H; discriminate H|].
  split; [intro H; vm_compute in H; exact H|]. vm_compute. reflexivity.
Qed.

Lemma missing_optional_column_skips_row_witness :
  observations "pg" model.LegacyValidation (activeTimeAvail v13)
    rowNoDeadlocks = []
  /\ fst (Update "pg" model.LegacyValidation
            (instanceOf v13 (QueryRows [ScanOk rowNoDeadlocks; ScanOk fullRow]))
            emptyWorld)
     = fst (Update "pg" model.LegacyValidation
              (instanceOf v13 (QueryRows [ScanOk fullRow])) emptyWorld).
Proof.
  pose proof
    (missing_optional_column_skips_row "pg" model.LegacyValidation
       (instanceOf v13 (QueryRows [ScanOk rowNoDeadlocks; ScanOk fullRow]))
       (instanceOf v13 (QueryRows [ScanOk fullRow]))
       rowNoDeadlocks [] [ScanOk fullRow] emptyWorld
       eq_refl eq_refl eq_refl eq_refl eq_refl) as [H1 [_ [_ [H2 _]]]].
  split; [exact H1|exact H2].
Defined.


Lemma query_and_scan_errors_abort_witness :
  Update "pg" model.LegacyValidation
    (instanceOf v13 (QueryErr (mkError "connection refused"))) emptyWorld
  = (Returned (Some (mkError "connection refused")), emptyWorld)
  /\ fst (Update "pg" model.LegacyValidation
            (instanceOf v13 (QueryRows brokenStream)) emptyWorld)
     = Returned (Some (mkError "bad scan")).
Proof.
  destruct (query_and_scan_errors_abort "pg" model.LegacyValidation)
    as [H1 H2].
  split.
  - exact (H1 (instanceOf v13 (QueryErr (mkError "connection refused")))
             (mkError "connection refused") emptyWorld eq_refl).
  - exact (proj1 (H2 (instanceOf v13 (QueryRows brokenStream)) [fullRow]
                    (mkError "bad scan") [ScanOk fullRow] emptyWorld eq_refl
                    (Forall_cons fullRow eq_refl (Forall_nil _)))).
Defined.

Lemma row_emission_all_or_nothing_witness :
  numericPresent (activeTimeAvail v13) rowNoDeadlocks = false
  /\ observations "pg" model.LegacyValidation (activeTimeAvail v13)
       rowNoDeadlocks = [].
Proof.
  split; [reflexivity|].
  exact (proj2 (proj2 (row_emission_all_or_nothing "pg" model.LegacyValidation
                         v13 rowNoDeadlocks))
           eq_refl).
Defined.

Lemma full_row_emission_witness :
  List.length (observations "pg" model.LegacyValidation (activeTimeAvail v13)
                 fullRow)
  = List.length (activeCatalog "pg" model.LegacyValidation (columns v13))
  /\ List.length
       (ch (snd (Update "pg" model.LegacyValidation
                   (instanceOf v13 (QueryRows [ScanOk fullRow])) emptyWorld)))
     = 17
  /\ In (prometheus.mkMetric
           (statDatabaseActiveTime "pg" model.LegacyValidation)
           prometheus.CounterValue 4.2%float (labelsOf fullRow))
        (ch (snd (Update "pg" model.LegacyValidation
                    (instanceOf v14_2 (QueryRows [ScanOk fullRow]))
                    emptyWorld))).
Proof.
  destruct (full_row_emission "pg" model.LegacyValidation) as [H1 [H2 H3]].
  split; [exact (H1 v13 fullRow eq_refl eq_refl eq_refl)|]. split.
  - exact (proj1 (proj2 (proj2
             (H2 (instanceOf v13 (QueryRows [ScanOk fullRow])) fullRow
                eq_refl eq_refl eq_refl eq_refl eq_refl)))).
  - exact (proj2 (proj2
             (H3 (instanceOf v14_2 (QueryRows [ScanOk fullRow])) fullRow
                eq_refl eq_refl eq_refl eq_refl eq_refl eq_refl))).
Defined.

Lemma active_time_gate_and_scaling_witness :
  In (prometheus.mkMetric (statDatabaseActiveTime "pg" model.LegacyValidation)
        prometheus.CounterValue 2.5%float
        (labelsOf (sampleRow true true true 2500)))
     (ch (snd (Update "pg" model.LegacyValidation
                 (instanceOf v14_2
                    (QueryRows (scanned [fullRow]
                                  ++ [ScanOk (sampleRow true true true 2500)])))
                 emptyWorld))).
Proof.
  exact (proj2
           (proj2 (proj2 (active_time_gate_and_scaling "pg"
                            model.LegacyValidation))
              (instanceOf v14_2
                 (QueryRows (scanned [fullRow]
                               ++ [ScanOk (sampleRow true true true 2500)])))
              [fullRow] (sampleRow true true true 2500) [] emptyWorld
              eq_refl eq_refl (Forall_cons fullRow eq_refl (Forall_nil _))
              eq_refl eq_refl eq_refl)
           eq_refl).
Defined.

Lemma absent_reset_timestamp_defaults_to_zero_witness :
  In (prometheus.mkMetric (statDatabaseStatsReset "pg" model.LegacyValidation)
        prometheus.CounterValue 0%float (labelsOf rowNoReset))
     (ch (snd (Update "pg" model.LegacyValidation
                 (instanceOf v13
                    (QueryRows (scanned [fullRow]
                                  ++ ScanOk rowNoReset :: scanned [fullRow])))
                 emptyWorld)))
  /\ fst (Update "pg" model.LegacyValidation
            (instanceOf v13
               (QueryRows (scanned [fullRow]
                             ++ ScanOk rowNoReset :: scanned [fullRow])))
            emptyWorld)
     = Returned None.
Proof.
  pose proof
    (absent_reset_timestamp_defaults_to_zero "pg" model.LegacyValidation
       (instanceOf v13
          (QueryRows (scanned [fullRow]
                        ++ ScanOk rowNoReset :: scanned [fullRow])))
       [fullRow] rowNoReset (scanned [fullRow]) emptyWorld
       eq_refl (Forall_cons fullRow eq_refl (Forall_nil _))
       eq_refl eq_refl eq_refl eq_refl) as [H1 [_ [_ H2]]].
  split; [exact H1|].
  exact (H2 [fullRow] eq_refl (Forall_cons fullRow eq_refl (Forall_nil _))).
Defined.

Lemma column_selection_deterministic_monotone_witness :
  semver.GTE (semver.plain 15 1 0) (semver.plain 14 0 0) = true
  /\ incl (filter isGated (columns (semver.plain 14 0 0)))
          (filter isGated (columns (semver.plain 15 1 0))).
Proof.
  split; [reflexivity|].
  exact (proj2 (proj2 (column_selection_deterministic_monotone "pg"
                         model.LegacyValidation))
           (semver.plain 15 1 0) (semver.plain 14 0 0) eq_refl).
Defined.

Lemma query_selects_exactly_the_columns_witness :
  strings.Split (statDatabaseQuery (columns v14_2)) " "
  = ["SELECT"; strings.Join (columns v14_2) ","; "FROM"; "pg_stat_database;"]
  /\ strings.Split (strings.Join (columns v14_2) ",") "," = columns v14_2.
Proof.
  apply (query_selects_exactly_the_columns (columns v14_2)).
  - discriminate.
  - repeat constructor.
Defined.

(* ------------------------------------------------------------------ *)
(** ** Further theorems at sample inputs *)

Lemma Update_result_characterised_witness :
  fst (Update "pg" model.LegacyValidation
         (instanceOf v13 (QueryRows mixedStream)) emptyWorld)
  = Returned None
  /\ fst (Update "pg" model.LegacyValidation
            (instanceOf v13 (QueryRows brokenStream)) emptyWorld)
     = Returned (Some (mkError "bad scan"))
  /\ fst (Update "pg" model.LegacyValidation
            (instanceOf v13 (QueryRows panickingStream)) emptyWorld)
     = Panicked.
Proof.
  split; [|split].
  - apply (proj2 (proj1
             (Update_result_characterised "pg" model.LegacyValidation
                (instanceOf v13 (QueryRows mixedStream)) emptyWorld))).
    exists [fullRow; rowNoDeadlocks; fullRow].
    split; [reflexivity|]. repeat (constructor; [reflexivity|]). constructor.
  - apply (proj2 (proj1 (proj2
             (Update_result_characterised "pg" model.LegacyValidation
                (instanceOf v13 (QueryRows brokenStream)) emptyWorld))
             (mkError "bad scan"))).
    right. exists [fullRow], [ScanOk fullRow].
    split; [reflexivity|]. repeat (constructor; [reflexivity|]). constructor.
  - apply (proj2 (proj2 (proj2
             (Update_result_characterised "pg" model.LegacyValidation
                (instanceOf v13 (QueryRows panickingStream)) emptyWorld)))).
    exists [fullRow], rowBadName, [ScanOk fullRow].
    split; [reflexivity|].
    split; [repeat (constructor; [reflexivity|]); constructor|].
    split; reflexivity.
Defined.

Lemma Update_stream_composes_witness :
  fst (Update "pg" model.LegacyValidation
         (instanceOf v13 (QueryRows brokenStream)) emptyWorld)
  = fst (Update "pg" model.LegacyValidation
           (instanceOf v13
              (QueryRows [ScanFail (mkError "bad scan"); ScanOk fullRow]))
           emptyWorld).
Proof.
  exact (proj1
           (Update_stream_composes "pg" model.LegacyValidation
              (instanceOf v13 (QueryRows brokenStream))
              (instanceOf v13
                 (QueryRows [ScanFail (mkError "bad scan"); ScanOk fullRow]))
              [fullRow] [ScanFail (mkError "bad scan"); ScanOk fullRow]
              emptyWorld eq_refl eq_refl eq_refl
              (Forall_cons fullRow eq_refl (Forall_nil _)))).
Defined.

Lemma Update_channel_of_scanned_stream_witness :
  List.length
    (ch (snd (Update "pg" model.LegacyValidation
                (instanceOf v13 (QueryRows mixedStream)) emptyWorld)))
  = 0 + 17 * 2.
Proof.
  apply (Update_channel_of_scanned_stream "pg" model.LegacyValidation
           (instanceOf v13 (QueryRows mixedStream))
           [fullRow; rowNoDeadlocks; fullRow] emptyWorld eq_refl).
  repeat (constructor; [reflexivity|]). constructor.
Defined.

Lemma skip_message_names_first_absent_column_witness :
  loopBody "pg" model.LegacyValidation false (ScanOk rowBadName) emptyWorld
  = (Panic, mkWorld [] []).
Proof.
  exact (proj2 (proj2 (skip_message_names_first_absent_column "pg"
                         model.LegacyValidation false rowBadName))).
Defined.

Lemma silent_iff_all_present_witness :
  diagnostics "pg" model.LegacyValidation true fullRow = []
  /\ allPresent true rowNoReset = false.
Proof.
  split.
  - exact (proj2 (silent_iff_all_present "pg" model.LegacyValidation true
                    fullRow) eq_refl).
  - reflexivity.
Defined.

Lemma Update_observations_come_from_rows_witness :
  In (prometheus.mkMetric
        (statDatabaseNumbackends "pg" model.LegacyValidation)
        prometheus.GaugeValue 3%float ["12345"; "appdb"])
     []
  \/ exists r e,
       In (ScanOk r) mixedStream
       /\ reachesEmission (activeTimeAvail v13) r = true
       /\ In e (activeCatalog "pg" model.LegacyValidation (columns v13))
       /\ prometheus.mkMetric
            (statDatabaseNumbackends "pg" model.LegacyValidation)
            prometheus.GaugeValue 3%float ["12345"; "appdb"]
          = observe r e
       /\ ["12345"; "appdb"]
          = [sql.NullString.String (datid r);
             sql.NullString.String (datname r)].
Proof.
  apply (Update_observations_come_from_rows "pg" model.LegacyValidation
           (instanceOf v13 (QueryRows mixedStream)) mixedStream emptyWorld
           (prometheus.mkMetric
              (statDatabaseNumbackends "pg" model.LegacyValidation)
              prometheus.GaugeValue 3%float ["12345"; "appdb"])
           eq_refl).
  vm_compute. left. reflexivity.
Defined.

Lemma present_reset_timestamp_is_unix_seconds_witness :
  In (prometheus.mkMetric (statDatabaseStatsReset "pg" model.LegacyValidation)
        prometheus.CounterValue 1700000000%float (labelsOf fullRow))
     (ch (snd (Update "pg" model.LegacyValidation
                 (instanceOf v13 (QueryRows mixedStream)) emptyWorld))).
Proof.
  exact (proj1
           (present_reset_timestamp_is_unix_seconds "pg"
              model.LegacyValidation
              (instanceOf v13 (QueryRows mixedStream))
              [] fullRow (scanned [rowNoDeadlocks; fullRow]) emptyWorld
              eq_refl (Forall_nil _) eq_refl eq_refl eq_refl eq_refl)).
Defined.

Lemma descriptor_names_are_distinct_witness :
  prometheus.MustNewConstMetric
    (statDatabaseNumbackends "pg" model.LegacyValidation)
    prometheus.GaugeValue 3%float ["12345"; "appdb"]
  = Some (prometheus.mkMetric
            (statDatabaseNumbackends "pg" model.LegacyValidation)
            prometheus.GaugeValue 3%float ["12345"; "appdb"])
  /\ prometheus.MustNewConstMetric
       (statDatabaseNumbackends "pg" model.LegacyValidation)
       prometheus.GaugeValue 3%float ["12345"; latin1Name]
     = None
  /\ prometheus.MustNewConstMetric
       (statDatabaseNumbackends (String (ascii_of_N 255) "")
          model.UTF8Validation)
       prometheus.GaugeValue 3%float ["12345"; "appdb"]
     = None.
Proof.
  split; [|split].
  - exact (proj2 (proj2 (proj2 (proj2
             (descriptor_names_are_distinct "pg" model.LegacyValidation))))
           (mkEntry "numbackends"
              (statDatabaseNumbackends "pg" model.LegacyValidation)
              prometheus.GaugeValue
              (fun r => sql.NullFloat64.Float64 (numBackends r)))
           3%float "12345" "appdb" (or_introl eq_refl)).
  - exact (proj2 (proj2 (proj2 (proj2
             (descriptor_names_are_distinct "pg" model.LegacyValidation))))
           (mkEntry "numbackends"
              (statDatabaseNumbackends "pg" model.LegacyValidation)
              prometheus.GaugeValue
              (fun r => sql.NullFloat64.Float64 (numBackends r)))
           3%float "12345" latin1Name (or_introl eq_refl)).
  - exact (proj2 (proj2 (proj2 (proj2
             (descriptor_names_are_distinct (String (ascii_of_N 255) "")
                model.UTF8Validation))))
           (mkEntry "numbackends"
              (statDatabaseNumbackends (String (ascii_of_N 255) "")
                 model.UTF8Validation)
              prometheus.GaugeValue
              (fun r => sql.NullFloat64.Float64 (numBackends r)))
           3%float "12345" "appdb" (or_introl eq_refl)).
Defined.

Lemma active_time_availability_witness :
  activeTimeAvail v14_beta1 = false
  /\ activeTimeAvail v14_2 = true.
Proof.
  split.
  - apply (proj2 (proj2 (active_time_availability v14_beta1)));
      try reflexivity. discriminate.
  - apply (proj2 (proj1 (active_time_availability v14_2))).
    right. split; [reflexivity|]. left. reflexivity.
Defined.

Lemma query_text_determines_columns_witness :
  columns v14_2 = baseColumns ++ ["active_time"].
Proof.
  apply (query_text_determines_columns (columns v14_2)
           (baseColumns ++ ["active_time"])).
  - discriminate.
  - discriminate.
  - repeat constructor.
  - repeat constructor.
  - reflexivity.
Defined.
